(** * Commit: text -> bitmap -> calendar dates -> commit schedule

    A shallow embedding of the pure core of [main.py]
    ([sunday_on_or_before], [all_dates_for_year_grid],
    [rasterize_text_to_53x7], [compute_commit_schedule]) together with the
    part of Python's [datetime] module these functions rely on
    (proleptic Gregorian ordinals, [date], [timedelta] addition, [datetime]
    ordering), and the properties of the schedule that follow. *)

From Stdlib Require Import ZArith List Lia Bool String Ascii DecimalString.
From Stdlib Require SpecFloat.
From Stdlib Require Import Sorting.Sorted Sorting.Permutation.
Import ListNotations.

Local Open Scope Z_scope.

(** ** Exceptions

    Python code fails by raising; every fallible function of the model
    returns a [result]. *)

Inductive exn : Type :=
| ValueError      (* a [date]/[datetime] field out of range *)
| OverflowError   (* date arithmetic left [date.min .. date.max] *)
| IndexError.     (* subscript out of range *)

Inductive result (A : Type) : Type :=
| Ok (a : A)
| Raise (e : exn).

Arguments Ok {A} a.
Arguments Raise {A} e.

Definition bind {A B : Type} (m : result A) (k : A -> result B) : result B :=
  match m with
  | Ok a => k a
  | Raise e => Raise e
  end.

Notation "x <- m ;; k" := (bind m (fun x => k))
  (at level 61, m at next level, right associativity).

(** [[f(a) for a in l]]: elements are evaluated left to right and the first
    exception aborts the comprehension. *)
Fixpoint comprehension {A B : Type} (f : A -> result B) (l : list A)
  : result (list B) :=
  match l with
  | [] => Ok []
  | a :: l' => b <- f a ;; bs <- comprehension f l' ;; Ok (b :: bs)
  end.

(** [for a in l: s = body(s, a)] with an exception aborting the loop. *)
Fixpoint for_each {A S : Type} (body : S -> A -> result S) (l : list A) (s : S)
  : result S :=
  match l with
  | [] => Ok s
  | a :: l' => s' <- body s a ;; for_each body l' s'
  end.

(** [range(n)] *)
Definition range (n : nat) : list nat := seq 0 n.

(** [l[i]] for a non-negative index. *)
Definition getitem {A : Type} (l : list A) (i : nat) : result A :=
  match nth_error l i with
  | Some a => Ok a
  | None => Raise IndexError
  end.

(** [a < b] on tuples of integers: lexicographic, a proper prefix being
    smaller. *)
Fixpoint tuple_ltb (a b : list Z) : bool :=
  match a, b with
  | x :: a', y :: b' => (x <? y) || ((x =? y) && tuple_ltb a' b')
  | [], _ :: _ => true
  | _, [] => false
  end.

(** What fits a C [int].  The constructors of [date] and [datetime] convert
    their arguments to C integers before they look at them, and an integer
    that does not fit raises [OverflowError]. *)
Definition fits_c_int (z : Z) : bool := (- 2 ^ 31 <=? z) && (z <? 2 ^ 31).

(** ** Python's [datetime] module: the proleptic Gregorian calendar *)

Module PyDate.

Definition MINYEAR : Z := 1.
Definition MAXYEAR : Z := 9999.
(** [date.max.toordinal()] *)
Definition MAXORDINAL : Z := 3652059.

Definition is_leap (year : Z) : bool :=
  (year mod 4 =? 0) && (negb (year mod 100 =? 0) || (year mod 400 =? 0)).

(** Number of days before January 1st of [year]. *)
Definition days_before_year (year : Z) : Z :=
  let y := year - 1 in
  y * 365 + y / 4 - y / 100 + y / 400.

(** [_DAYS_IN_MONTH], 1-based. *)
Definition DAYS_IN_MONTH (month : Z) : Z :=
  match month with
  | 1 => 31 | 2 => 28 | 3 => 31 | 4 => 30 | 5 => 31 | 6 => 30
  | 7 => 31 | 8 => 31 | 9 => 30 | 10 => 31 | 11 => 30 | 12 => 31
  | _ => -1
  end.

(** [_DAYS_BEFORE_MONTH], 1-based: days of a non-leap year before the month. *)
Definition DAYS_BEFORE_MONTH (month : Z) : Z :=
  match month with
  | 1 => 0 | 2 => 31 | 3 => 59 | 4 => 90 | 5 => 120 | 6 => 151
  | 7 => 181 | 8 => 212 | 9 => 243 | 10 => 273 | 11 => 304 | 12 => 334
  | _ => -1
  end.

Definition days_in_month (year month : Z) : Z :=
  if (month =? 2) && is_leap year then 29 else DAYS_IN_MONTH month.

Definition days_before_month (year month : Z) : Z :=
  DAYS_BEFORE_MONTH month + (if (2 <? month) && is_leap year then 1 else 0).

(** [_ymd2ord]: January 1st of year 1 is day 1. *)
Definition ymd2ord (year month day : Z) : Z :=
  days_before_year year + days_before_month year month + day.

Definition DI400Y : Z := 146097.
Definition DI100Y : Z := 36524.
Definition DI4Y : Z := 1461.

(** Month and day (1-based) of the [n]-th day (0-based) of a year. *)
Definition month_day (leapyear : bool) (n : Z) : Z * Z :=
  let month := Z.shiftr (n + 50) 5 in
  let preceding :=
    DAYS_BEFORE_MONTH month + (if (2 <? month) && leapyear then 1 else 0) in
  if n <? preceding then
    let month' := month - 1 in
    let preceding' :=
      preceding
      - (DAYS_IN_MONTH month' + (if (month' =? 2) && leapyear then 1 else 0)) in
    (month', n - preceding' + 1)
  else (month, n - preceding + 1).

(** [_ord2ymd]: the inverse of [ymd2ord]. *)
Definition ord2ymd (ordinal : Z) : Z * Z * Z :=
  let n := ordinal - 1 in
  let n400 := n / DI400Y in
  let n := n mod DI400Y in
  let year := n400 * 400 + 1 in
  let n100 := n / DI100Y in
  let n := n mod DI100Y in
  let n4 := n / DI4Y in
  let n := n mod DI4Y in
  let n1 := n / 365 in
  let n := n mod 365 in
  let year := year + n100 * 100 + n4 * 4 + n1 in
  if (n1 =? 4) || (n100 =? 4) then (year - 1, 12, 31)
  else
    let leapyear := (n1 =? 3) && (negb (n4 =? 24) || (n100 =? 3)) in
    let '(month, day) := month_day leapyear n in
    (year, month, day).

(** A [date] object. *)
Record date : Type := mkdate { year : Z; month : Z; day : Z }.

(** The class invariant of [date], enforced by its constructor. *)
Definition valid (d : date) : Prop :=
  MINYEAR <= year d <= MAXYEAR /\
  1 <= month d <= 12 /\
  1 <= day d <= days_in_month (year d) (month d).

Definition check_date_fields (y m d : Z) : bool :=
  (MINYEAR <=? y) && (y <=? MAXYEAR) &&
  (1 <=? m) && (m <=? 12) &&
  (1 <=? d) && (d <=? days_in_month y m).

(** [date(y, m, d)] *)
Definition new (y m d : Z) : result date :=
  if fits_c_int y && fits_c_int m && fits_c_int d then
    if check_date_fields y m d then Ok (mkdate y m d) else Raise ValueError
  else Raise OverflowError.

Definition toordinal (d : date) : Z := ymd2ord (year d) (month d) (day d).

(** [date.fromordinal(n)] for an ordinal already known to be in range. *)
Definition fromordinal (n : Z) : date :=
  let '(y, m, d) := ord2ymd n in mkdate y m d.

(** [d.weekday()]: Monday is 0, Sunday is 6. *)
Definition weekday (d : date) : Z := (toordinal d + 6) mod 7.

(** [d + timedelta(days=n)] *)
Definition add_days (d : date) (n : Z) : result date :=
  let o := toordinal d + n in
  if (0 <? o) && (o <=? MAXORDINAL) then Ok (fromordinal o)
  else Raise OverflowError.

(** [d - timedelta(days=n)], that is [d + timedelta(days=-n)]. *)
Definition sub_days (d : date) (n : Z) : result date := add_days d (- n).

(** Dates compare as the tuples [(year, month, day)]. *)
Definition astuple (d : date) : list Z := [year d; month d; day d].

Definition ltb (a b : date) : bool := tuple_ltb (astuple a) (astuple b).

Definition lt (a b : date) : Prop := ltb a b = true.
Definition le (a b : date) : Prop := ltb b a = false.

End PyDate.

(** ** [datetime] objects (naive, no [tzinfo]) *)

Module PyDateTime.

Record datetime : Type := mkdatetime {
  year : Z; month : Z; day : Z;
  hour : Z; minute : Z; second : Z; microsecond : Z
}.

Definition check_time_fields (h mi s us : Z) : bool :=
  (0 <=? h) && (h <=? 23) && (0 <=? mi) && (mi <=? 59) &&
  (0 <=? s) && (s <=? 59) && (0 <=? us) && (us <=? 999999).

(** [datetime(y, m, d, h, mi, s)]; [microsecond] defaults to 0. *)
Definition new (y m d h mi s : Z) : result datetime :=
  if fits_c_int y && fits_c_int m && fits_c_int d
     && fits_c_int h && fits_c_int mi && fits_c_int s then
    if PyDate.check_date_fields y m d && check_time_fields h mi s 0
    then Ok (mkdatetime y m d h mi s 0)
    else Raise ValueError
  else Raise OverflowError.

(** Naive datetimes compare as the tuples
    [(year, month, day, hour, minute, second, microsecond)]. *)
Definition astuple (t : datetime) : list Z :=
  [year t; month t; day t; hour t; minute t; second t; microsecond t].

Definition ltb (a b : datetime) : bool := tuple_ltb (astuple a) (astuple b).

Definition lt (a b : datetime) : Prop := ltb a b = true.
Definition le (a b : datetime) : Prop := ltb b a = false.

End PyDateTime.

(** ** [list.sort()]

    Python's sort compares with [<] only and is stable.  The stable
    arrangement of a list is unique, so the sort is modelled by a stable
    insertion sort: each element, taken in order, goes behind every element
    that is not greater than it. *)

Section ListSort.
Context {A : Type} (ltb : A -> A -> bool).

Fixpoint insert_sorted (a : A) (l : list A) : list A :=
  match l with
  | [] => [a]
  | b :: l' => if ltb a b then a :: b :: l' else b :: insert_sorted a l'
  end.

Definition list_sort (l : list A) : list A :=
  fold_left (fun acc a => insert_sorted a acc) l [].
End ListSort.

(** ** [main.py]: small helpers *)

Definition sunday_on_or_before (d : PyDate.date) : result PyDate.date :=
  PyDate.sub_days d ((PyDate.weekday d + 1) mod 7).

(** The 53x7 matrix of calendar dates, indexed [[x][y]]. *)
Definition all_dates_for_year_grid (year : Z)
  : result (list (list PyDate.date)) :=
  jan1 <- PyDate.new year 1 1 ;;
  start <- sunday_on_or_before jan1 ;;
  comprehension
    (fun x => comprehension
                (fun y => PyDate.add_days start (7 * Z.of_nat x + Z.of_nat y))
                (range 7))
    (range 53).

(** ** Pillow images (mode ["L"]: one intensity per pixel) *)

Module PIL.

Record Image : Type := mkImage {
  xsize : nat;
  ysize : nat;
  pixel : nat -> nat -> Z   (* intensity at column x, row y *)
}.

(** [Image.new("L", (w, h), color)] *)
Definition new (w h : nat) (color : Z) : Image :=
  mkImage w h (fun _ _ => color).

(** Running bounding box of [getbbox]: [(left, upper, right, lower)], the
    upper bound being [None] as long as no lit pixel has been met. *)
Definition bbox_state : Type := (nat * option nat * nat * nat)%type.

Definition bbox_scan_row (im : Image) (y : nat) (st : bbox_state) : bbox_state :=
  let '(x0, y0, x1, y1) := st in
  let '(x0', x1', has_data) :=
    fold_left
      (fun (acc : nat * nat * bool) (x : nat) =>
         let '(l, r, h) := acc in
         if pixel im x y =? 0 then acc
         else ((if x <? l then x else l)%nat,
               (if r <=? x then S x else r)%nat,
               true))
      (range (xsize im)) (x0, x1, false) in
  if has_data
  then (x0', Some (match y0 with Some u => u | None => y end), x1', S y)
  else (x0', y0, x1', y1).

(** [im.getbbox()]: the box of the non-zero region, [None] when the image is
    entirely zero.  The right and lower bounds are exclusive. *)
Definition getbbox (im : Image) : option (nat * nat * nat * nat) :=
  let '(x0, y0, x1, y1) :=
    fold_left (fun st y => bbox_scan_row im y st)
              (range (ysize im)) (xsize im, None, 0%nat, 0%nat) in
  match y0 with
  | Some u => Some (x0, u, x1, y1)
  | None => None
  end.

(** [im.crop((left, upper, right, lower))] *)
Definition crop (im : Image) (box : nat * nat * nat * nat) : Image :=
  let '(x0, y0, x1, y1) := box in
  mkImage (x1 - x0) (y1 - y0) (fun x y => pixel im (x + x0) (y + y0)).

(** The C [double]: IEEE 754 binary64. *)
Definition double : Type := SpecFloat.spec_float.

Definition double_of_nat (n : nat) : double :=
  SpecFloat.binary_normalize 53 1024 (Z.of_nat n) 0 false.

(** [0.5] *)
Definition double_half : double :=
  SpecFloat.binary_normalize 53 1024 1 (-1) false.

(** [COORD(v)]: [-1] for a negative [v], the cast [(int) v] otherwise.  The
    cast of an infinity or a NaN is not defined in C; it does not arise for
    the sizes at hand and is given as [-1]. *)
Definition COORD (v : double) : Z :=
  match v with
  | SpecFloat.S754_zero _ => 0
  | SpecFloat.S754_finite false m e =>
      if 0 <=? e then Z.pos m * 2 ^ e else Z.pos m / 2 ^ (- e)
  | _ => -1
  end.

(** Source coordinate read by output coordinate [i] when [insize] pixels are
    resampled to [outsize] with [Image.NEAREST].  Pillow walks the source in
    doubles: it starts half a step in, [0.0 + a * 0.5] with the step
    [a = insize / outsize], adds [a] once per output pixel, and truncates. *)
Definition nearest_src (i insize outsize : nat) : Z :=
  let a := SpecFloat.SFdiv 53 1024 (double_of_nat insize) (double_of_nat outsize) in
  let start :=
    SpecFloat.SFadd 53 1024 (SpecFloat.S754_zero false)
                    (SpecFloat.SFmul 53 1024 a double_half) in
  COORD (Nat.iter i (fun v => SpecFloat.SFadd 53 1024 v a) start).

(** [im.resize((w, h), Image.NEAREST)]: a coordinate that falls outside the
    source leaves the output pixel at 0. *)
Definition resize_nearest (im : Image) (w h : nat) : Image :=
  mkImage w h
          (fun x y =>
             let xin := nearest_src x (xsize im) w in
             let yin := nearest_src y (ysize im) h in
             if (0 <=? xin) && (xin <? Z.of_nat (xsize im))
                && (0 <=? yin) && (yin <? Z.of_nat (ysize im))
             then pixel im (Z.to_nat xin) (Z.to_nat yin)
             else 0).

(** [im.load()[x, y]] *)
Definition getpixel (im : Image) (x y : nat) : result Z :=
  if ((x <? xsize im) && (y <? ysize im))%nat then Ok (pixel im x y)
  else Raise IndexError.

End PIL.

(** ** [main.py]: rasterizer and schedule

    The text renderer ([ImageDraw.Draw(tmp).text((0, 0), text, fill=255,
    font=ImageFont.load_default())]) belongs to Pillow and its glyph shapes
    are not part of the program: it is a parameter of the development. *)

Section Pipeline.

Variable draw_text : PIL.Image -> string -> PIL.Image.

(** The 7x53 boolean grid, indexed [[y][x]]. *)
Definition rasterize_text_to_53x7 (text : string)
  : result (list (list bool)) :=
  let tmp := draw_text (PIL.new 1200 200 0) text in
  match PIL.getbbox tmp with
  | None => Ok (repeat (repeat false 53) 7)
  | Some bbox =>
      let cropped := PIL.crop tmp bbox in
      let small := PIL.resize_nearest cropped 53 7 in
      comprehension
        (fun y => comprehension
                    (fun x => v <- PIL.getpixel small x y ;;
                              Ok (negb (v =? 0)))
                    (range 53))
        (range 7)
  end.

(** One iteration of the inner loop of [compute_commit_schedule]. *)
Definition schedule_cell (pix : list (list bool))
           (cal : list (list PyDate.date)) (year : Z)
           (x : nat) (selected : list PyDateTime.datetime) (y : nat)
  : result (list PyDateTime.datetime) :=
  row <- getitem pix y ;;
  lit <- getitem row x ;;
  if negb lit then Ok selected
  else
    week <- getitem cal x ;;
    d <- getitem week y ;;
    if negb (PyDate.year d =? year) then Ok selected
    else
      ts <- PyDateTime.new (PyDate.year d) (PyDate.month d) (PyDate.day d)
                           12 0 0 ;;
      Ok (selected ++ [ts]).

Definition compute_commit_schedule (word : string) (year : Z)
  : result (list PyDateTime.datetime) :=
  pix <- rasterize_text_to_53x7 word ;;
  cal <- all_dates_for_year_grid year ;;
  selected <-
    for_each
      (fun sel x => for_each (schedule_cell pix cal year x) (range 7) sel)
      (range 53) [] ;;
  Ok (list_sort PyDateTime.ltb selected).

End Pipeline.

(** ** Vocabulary of the statements *)

(** [g[i][j]], when both subscripts are in range. *)
Definition grid_at {A : Type} (g : list (list A)) (i j : nat) : option A :=
  match nth_error g i with
  | Some r => nth_error r j
  | None => None
  end.

(** The cells [(x, y)] of the 53x7 grid, in the order the schedule loop
    visits them: [x] varies slowest. *)
Definition cells : list (nat * nat) :=
  flat_map (fun x => map (pair x) (range 7)) (range 53).

(** 12:00:00 on the day [d]. *)
Definition noon (d : PyDate.date) : PyDateTime.datetime :=
  PyDateTime.mkdatetime (PyDate.year d) (PyDate.month d) (PyDate.day d) 12 0 0 0.

(** What the cell [(x, y)] contributes to the schedule of [year]: noon of its
    date when the pixel [pix[y][x]] is lit and the date [cal[x][y]] lies in
    [year], nothing otherwise. *)
Definition cell_entries (pix : list (list bool)) (cal : list (list PyDate.date))
           (year : Z) (c : nat * nat) : list PyDateTime.datetime :=
  let '(x, y) := c in
  match grid_at pix y x, grid_at cal x y with
  | Some true, Some d => if PyDate.year d =? year then [noon d] else []
  | _, _ => []
  end.

(** A grid of [n] rows of [m] entries each. *)
Definition has_shape {A : Type} (n m : nat) (g : list (list A)) : Prop :=
  List.length g = n /\ Forall (fun r => List.length r = m) g.

(** Length of a year in days. *)
Definition days_in_year (y : Z) : Z := if PyDate.is_leap y then 366 else 365.

(** Check of [PyDate.month_day] on day [k] of a year: the month and the day
    are in range and [k] days precede that day. *)
Definition month_day_ok (leap : bool) (k : nat) : bool :=
  let n := Z.of_nat k in
  let '(m, d) := PyDate.month_day leap n in
  (1 <=? m) && (m <=? 12) && (1 <=? d) &&
  (d <=? PyDate.DAYS_IN_MONTH m + (if (m =? 2) && leap then 1 else 0)) &&
  (PyDate.DAYS_BEFORE_MONTH m + (if (2 <? m) && leap then 1 else 0) + d
   =? n + 1).

(** A renderer that leaves a 53x7 checkerboard whatever the text, and one
    that draws nothing: concrete backends on which the pipeline can be run. *)
Definition checker_text (_ : PIL.Image) (_ : string) : PIL.Image :=
  PIL.mkImage 53 7 (fun x y => if Nat.even (x + y) then 255 else 0).

Definition blank_text (im : PIL.Image) (_ : string) : PIL.Image := im.

(** The grid whose cell [(0, 0)] is the day of ordinal [o]. *)
Definition grid_from (o : Z) : list (list PyDate.date) :=
  map (fun x => map (fun y => PyDate.fromordinal
                                (o + (7 * Z.of_nat x + Z.of_nat y)))
                    (range 7))
      (range 53).

(** The cell visited at step [k] of the schedule loop. *)
Definition cell_of_step (k : nat) : nat * nat := (k / 7, k mod 7)%nat.

(** The date of a cell of [grid_from o], and the timestamp the cell
    contributes when it is lit and in the year. *)
Definition cell_date (o : Z) (c : nat * nat) : PyDate.date :=
  PyDate.fromordinal (o + (7 * Z.of_nat (fst c) + Z.of_nat (snd c))).

Definition cell_noon (o : Z) (c : nat * nat) : PyDateTime.datetime :=
  noon (cell_date o c).

(** Whether a cell contributes to the schedule. *)
Definition cell_selected (pix : list (list bool)) (cal : list (list PyDate.date))
           (year : Z) (c : nat * nat) : bool :=
  match cell_entries pix cal year c with
  | [] => false
  | _ :: _ => true
  end.

(** Ordinal of the Sunday on or before January 1st of [Y]. *)
Definition anchor_ordinal (Y : Z) : Z :=
  let j := PyDate.days_before_year Y + 1 in j - j mod 7.


(** ** Text: [str.split], [str(int)], [%d] formats *)

(** [s.partition(sep)] without the separator: the text before the first
    [sep], and the text after it when there is one. *)
Fixpoint cut_at (sep : ascii) (s : string) : string * option string :=
  match s with
  | EmptyString => (EmptyString, None)
  | String c s' =>
      if Ascii.eqb c sep then (EmptyString, Some s')
      else let '(a, b) := cut_at sep s' in (String c a, b)
  end.

(** [s.split(sep, 1)] for a one-character separator. *)
Definition split_once (sep : ascii) (s : string) : list string :=
  match cut_at sep s with
  | (a, None) => [a]
  | (a, Some b) => [a; b]
  end.

(** [str(z)] for an integer. *)
Definition str_int (z : Z) : string := NilZero.string_of_int (Z.to_int z).

(** [s.rjust(width, "0")] *)
Definition zero_pad (width : nat) (s : string) : string :=
  String.concat "" (repeat "0"%string (width - String.length s)) ++ s.

(** ["%0<width>d" % z] *)
Definition fmt_0d (width : nat) (z : Z) : string :=
  if z <? 0 then "-" ++ zero_pad (width - 1) (str_int (- z))
  else zero_pad width (str_int z).

(** [str(d)], that is [d.isoformat()]: ["%04d-%02d-%02d"]. *)
Definition date_isoformat (d : PyDate.date) : string :=
  fmt_0d 4 (PyDate.year d) ++ "-" ++ fmt_0d 2 (PyDate.month d) ++ "-"
  ++ fmt_0d 2 (PyDate.day d).

(** [ts.date()] *)
Definition datetime_date (t : PyDateTime.datetime) : PyDate.date :=
  PyDate.mkdate (PyDateTime.year t) (PyDateTime.month t) (PyDateTime.day t).

(** ** The process environment: a [dict] of strings *)

Definition environ : Type := list (string * string).

(** [env.get(key)] *)
Fixpoint env_get (env : environ) (key : string) : option string :=
  match env with
  | [] => None
  | (k, v) :: env' => if String.eqb k key then Some v else env_get env' key
  end.

(** [env[key] = value]: an existing key keeps its place, a new one goes
    last. *)
Fixpoint env_set (env : environ) (key value : string) : environ :=
  match env with
  | [] => [(key, value)]
  | (k, v) :: env' =>
      if String.eqb k key then (k, value) :: env'
      else (k, v) :: env_set env' key value
  end.

(** ** Effects: what the program prints and which processes it starts *)

Inductive event : Type :=
| Stdout (line : string)                 (* [print(line)] *)
| Stderr (text : string)                 (* [sys.stderr.write(text)] *)
| Spawn (cmd : list string) (env : option environ).
                                         (* [subprocess.run(cmd, env=env)] *)

(** What [subprocess.run] hands back. *)
Record CompletedProcess : Type := mkCompleted {
  returncode : Z;
  stdout : string
}.

(** How a run of the program can end other than by returning. *)
Inductive failure : Type :=
| SystemExit_code (rc : Z)               (* [raise SystemExit(rc)] *)
| SystemExit_msg (msg : string)          (* [raise SystemExit(msg)] *)
| Uncaught (e : exn)                     (* an exception of the core *)
| OSError.                               (* the process could not be started *)

Inductive outcome (A : Type) : Type :=
| Done (a : A)
| Fail (f : failure).

Arguments Done {A} a.
Arguments Fail {A} f.

(** A computation with effects: from the events so far to an outcome and
    the events then. *)
Definition io (A : Type) : Type := list event -> outcome A * list event.

Definition io_ret {A : Type} (a : A) : io A := fun tr => (Done a, tr).

Definition io_bind {A B : Type} (m : io A) (k : A -> io B) : io B :=
  fun tr =>
    match m tr with
    | (Done a, tr') => k a tr'
    | (Fail f, tr') => (Fail f, tr')
    end.

Notation "x <~ m ;; k" := (io_bind m (fun x => k))
  (at level 61, m at next level, right associativity).

Definition emit (e : event) : io unit := fun tr => (Done tt, tr ++ [e]).

Definition io_raise {A : Type} (f : failure) : io A := fun tr => (Fail f, tr).

(** An exception of the core, not caught by [main]. *)
Definition io_lift {A : Type} (r : result A) : io A :=
  match r with
  | Ok a => io_ret a
  | Raise e => io_raise (Uncaught e)
  end.

(** [for a in l: s = body(s, a)] with effects. *)
Fixpoint io_for {A S : Type} (body : S -> A -> io S) (l : list A) (s : S)
  : io S :=
  match l with
  | [] => io_ret s
  | a :: l' => s' <~ body s a ;; io_for body l' s'
  end.

(** ** [main.py]: [run] and [main] *)

(** The parsed command line: [--map] (repeatable, [None] when absent),
    [--remote] and [--branch]. *)
Record Args : Type := mkArgs {
  arg_map : option (list string);
  arg_remote : string;
  arg_branch : option string
}.

Section Main.

Variable draw_text : PIL.Image -> string -> PIL.Image.
(** [int(s)]; [None] stands for its [ValueError]. *)
Variable int_of_str : string -> option Z.
(** [ts.strftime(fmt)] *)
Variable strftime : PyDateTime.datetime -> string -> string.
(** [subprocess.run] of a command, after the events so far; [None] when the
    program cannot be started. *)
Variable subprocess_run :
  list event -> list string -> option environ -> option CompletedProcess.
(** [os.environ] *)
Variable os_environ : environ.
(** [datetime.utcnow().year] *)
Variable now_year : Z.

Definition run (cmd : list string) (env : option environ) : io string :=
  fun tr =>
    match subprocess_run tr cmd env with
    | None => (Fail OSError, tr ++ [Spawn cmd env])
    | Some res =>
        if returncode res =? 0 then (Done (stdout res), tr ++ [Spawn cmd env])
        else (Fail (SystemExit_code (returncode res)),
              tr ++ [Spawn cmd env; Stderr (stdout res)])
    end.

Definition default_map : list (Z * string) :=
  let last_full := now_year - 1 in
  [(last_full - 2, "LEBRON"%string); (last_full - 1, "elephanto"%string);
   (last_full, "feel"%string)].

(** One [--map] value: the body of the [try] and its [except ValueError]. *)
Definition parse_mapping (m : string) : outcome (Z * string) :=
  match split_once ":" m with
  | [yr_str; wd] =>
      match int_of_str yr_str with
      | Some yr => Done (yr, wd)
      | None => Fail (SystemExit_msg ("Bad --map value: " ++ m))
      end
  | _ => Fail (SystemExit_msg ("Bad --map value: " ++ m))
  end.

Fixpoint parse_mappings (ms : list string) : outcome (list (Z * string)) :=
  match ms with
  | [] => Done []
  | m :: ms' =>
      match parse_mapping m with
      | Done p =>
          match parse_mappings ms' with
          | Done ps => Done (p :: ps)
          | Fail f => Fail f
          end
      | Fail f => Fail f
      end
  end.

(** "Build mapping": [args.map] when given and not empty, the default
    otherwise. *)
Definition build_mappings (args : Args) : outcome (list (Z * string)) :=
  match arg_map args with
  | Some (m :: ms) => parse_mappings (m :: ms)
  | _ => Done default_map
  end.

(** [if args.branch:] *)
Definition branch_given (args : Args) : option string :=
  match arg_branch args with
  | Some EmptyString => None
  | b => b
  end.

Definition commit_env (ts : PyDateTime.datetime) : environ :=
  let iso := strftime ts "%Y-%m-%d %H:%M:%S +0000" in
  env_set (env_set os_environ "GIT_AUTHOR_DATE" iso) "GIT_COMMITTER_DATE" iso.

Definition commit_cmd (word : string) (year : Z) (ts : PyDateTime.datetime)
  : list string :=
  let msg := ("[contrib] " ++ word ++ " " ++ str_int year ++ " "
              ++ date_isoformat (datetime_date ts))%string in
  ["git"; "commit"; "--allow-empty"; "-m"; msg; "--quiet"]%string.

(** The body of [for idx, ts in enumerate(schedule, 1)]. *)
Definition commit (word : string) (year : Z) (_ : unit)
           (ts : PyDateTime.datetime) : io unit :=
  _ <~ run (commit_cmd word year ts) (Some (commit_env ts)) ;; io_ret tt.

Definition count_line (dry_run : bool) (year : Z) (word : string) (n : nat)
  : string :=
  ((if dry_run then "[DRY-RUN] " else "") ++ str_int year ++ " '" ++ word
   ++ "': " ++ str_int (Z.of_nat n) ++ " commits")%string.

(** The body of [for year, word in mappings]. *)
Definition main_pair (dry_run : bool) (total : Z) (p : Z * string) : io Z :=
  let '(year, word) := p in
  schedule <~ io_lift (compute_commit_schedule draw_text word year) ;;
  let total := total + Z.of_nat (List.length schedule) in
  if dry_run then
    _ <~ emit (Stdout (count_line true year word (List.length schedule))) ;;
    io_ret total
  else
    _ <~ emit (Stdout (count_line false year word (List.length schedule))) ;;
    _ <~ io_for (commit word year) schedule tt ;;
    io_ret total.

Definition not_a_repository : string :=
  "Not a git repository. Initialize one and add a remote before running."
  ++ String "010" "".

(** [main] from "Determine target ref" on: the part that runs inside a
    work tree. *)
Definition main_in_repo (args : Args) (mappings : list (Z * string))
  : io unit :=
  _ <~ match branch_given args with
       | Some b => _ <~ run ["git"; "checkout"; "-B"; b]%string None ;; io_ret tt
       | None => io_ret tt
       end ;;
  let dry_run := match env_get os_environ "DRY_RUN" with
                 | Some _ => true
                 | None => false
                 end in
  total <~ io_for (main_pair dry_run) mappings 0 ;;
  if dry_run then
    emit (Stdout ("[DRY-RUN] Total would commit: " ++ str_int total))
  else
    let ref := match branch_given args with
               | Some b => b
               | None => "HEAD"%string
               end in
    _ <~ emit (Stdout ("Pushing to '" ++ arg_remote args ++ "' " ++ ref)) ;;
    _ <~ run ["git"; "push"; arg_remote args; ref]%string None ;;
    io_ret tt.

Definition main (args : Args) : io unit :=
  match build_mappings args with
  | Fail f => io_raise f
  | Done mappings =>
      fun tr =>
        match run ["git"; "rev-parse"; "--is-inside-work-tree"]%string None tr with
        | (Done _, tr') => main_in_repo args mappings tr'
        | (Fail (SystemExit_code _), tr') =>
            (Done tt, tr' ++ [Stderr not_a_repository])
        | (Fail f, tr') => (Fail f, tr')
        end
  end.

End Main.


(** ** Vocabulary of the statements about [main] *)

(** Whether a string holds the character [c]. *)
Fixpoint has_char (c : ascii) (s : string) : bool :=
  match s with
  | EmptyString => false
  | String c' s' => Ascii.eqb c' c || has_char c s'
  end.

(** Whether an event starts the git subcommand [sub]. *)
Definition is_git (sub : string) (e : event) : bool :=
  match e with
  | Spawn (git :: s :: _) _ => String.eqb git "git" && String.eqb s sub
  | _ => false
  end.

(** What one (year, word) pair with schedule [sched] leaves in the trace
    when every commit succeeds. *)
Definition pair_events (strftime : PyDateTime.datetime -> string -> string)
           (os_environ : environ) (dry_run : bool)
           (ps : (Z * string) * list PyDateTime.datetime) : list event :=
  let '((year, word), sched) := ps in
  Stdout (count_line dry_run year word (List.length sched))
  :: (if dry_run then []
      else map (fun ts => Spawn (commit_cmd word year ts)
                                (Some (commit_env strftime os_environ ts)))
               sched).

(** [total] after the loop: the lengths of the schedules, added up. *)
Definition total_commits (scheds : list (list PyDateTime.datetime)) : Z :=
  fold_right (fun s n => Z.of_nat (List.length s) + n) 0 scheds.

(** The events of the checkout that [--branch] asks for. *)
Definition checkout_events (args : Args) : list event :=
  match branch_given args with
  | Some b => [Spawn ["git"; "checkout"; "-B"; b]%string None]
  | None => []
  end.

Definition rev_parse_event : event :=
  Spawn ["git"; "rev-parse"; "--is-inside-work-tree"]%string None.

(** A world in which every command succeeds silently, and a reader of
    decimal years: concrete surroundings on which [main] can be run. *)
Definition quiet_world (_ : list event) (_ : list string) (_ : option environ)
  : option CompletedProcess := Some (mkCompleted 0 "").

Definition iso_only (t : PyDateTime.datetime) (_ : string) : string :=
  date_isoformat (datetime_date t).

Definition read_year (s : string) : option Z :=
  if String.eqb s "2021" then Some 2021
  else if String.eqb s "2022" then Some 2022
  else if String.eqb s "0" then Some 0
  else None.

(** Traces in which nothing went wrong: only [print]s and processes that
    exited with code 0. *)
Inductive healthy
          (subprocess_run :
             list event -> list string -> option environ -> option CompletedProcess)
  : list event -> Prop :=
| healthy_nil : healthy subprocess_run []
| healthy_print tr line :
    healthy subprocess_run tr -> healthy subprocess_run (tr ++ [Stdout line])
| healthy_spawn tr cmd env out :
    healthy subprocess_run tr ->
    subprocess_run tr cmd env = Some (mkCompleted 0 out) ->
    healthy subprocess_run (tr ++ [Spawn cmd env]).

(** Traces that end with the one process that went wrong: it could not be
    started ([rc = None]), or it exited with the code [rc], not 0, and its
    output was passed on to stderr. *)
Definition failed_last
           (subprocess_run :
              list event -> list string -> option environ -> option CompletedProcess)
           (rc : option Z) (tr : list event) : Prop :=
  exists tr0 cmd env,
    healthy subprocess_run tr0 /\
    match rc with
    | Some c =>
        exists out, subprocess_run tr0 cmd env = Some (mkCompleted c out) /\
                    c <> 0 /\ tr = tr0 ++ [Spawn cmd env; Stderr out]
    | None => subprocess_run tr0 cmd env = None /\ tr = tr0 ++ [Spawn cmd env]
    end.

(** An outcome that respects "stop at the first failure". *)
Definition fail_fast
           (subprocess_run :
              list event -> list string -> option environ -> option CompletedProcess)
           {A : Type} (res : outcome A * list event) : Prop :=
  match res with
  | (Fail (SystemExit_code rc), tr) => failed_last subprocess_run (Some rc) tr
  | (Fail OSError, tr) => failed_last subprocess_run None tr
  | (_, tr) => healthy subprocess_run tr
  end.

(** A world outside any work tree: every git command exits with 128. *)
Definition no_repo_world (_ : list event) (_ : list string) (_ : option environ)
  : option CompletedProcess :=
  Some (mkCompleted 128 "fatal: not a git repository").

(** * Proofs *)

(** ** The error monad and the loops *)

Lemma bind_Ok_inv {A B : Type} (m : result A) (k : A -> result B) (b : B) :
  bind m k = Ok b -> exists a, m = Ok a /\ k a = Ok b.
Proof. destruct m as [a|e]; cbn; [ eauto | discriminate ]. Qed.

Lemma comprehension_Ok {A B : Type} (f : A -> result B) (g : A -> B) l :
  (forall a, In a l -> f a = Ok (g a)) -> comprehension f l = Ok (map g l).
Proof.
  induction l as [|a l IH]; cbn; intros H; [ reflexivity | ].
  rewrite H by auto. cbn. rewrite IH by auto. reflexivity.
Qed.

Lemma comprehension_inv {A B : Type} (f : A -> result B) l bs :
  comprehension f l = Ok bs -> Forall2 (fun a b => f a = Ok b) l bs.
Proof.
  revert bs. induction l as [|a l IH]; cbn; intros bs H.
  - injection H as <-. constructor.
  - apply bind_Ok_inv in H as (b & Hb & H).
    apply bind_Ok_inv in H as (bs' & Hbs & H). injection H as <-.
    constructor; auto.
Qed.

Lemma for_each_app {A T : Type} (body : list T -> A -> result (list T))
      (f : A -> list T) l :
  (forall s a, In a l -> body s a = Ok (s ++ f a)) ->
  forall s, for_each body l s = Ok (s ++ flat_map f l).
Proof.
  induction l as [|a l IH]; cbn; intros H s.
  - rewrite app_nil_r. reflexivity.
  - rewrite H by auto. cbn. rewrite IH by auto. rewrite app_assoc. reflexivity.
Qed.

Lemma getitem_Ok {A : Type} (l : list A) i a :
  nth_error l i = Some a -> getitem l i = Ok a.
Proof. unfold getitem. intros ->. reflexivity. Qed.

(** ** Tuple comparison is a strict total order *)

Lemma tuple_ltb_irrefl a : tuple_ltb a a = false.
Proof.
  induction a as [|x a IH]; cbn; [ reflexivity | ].
  rewrite Z.ltb_irrefl, Z.eqb_refl, IH. reflexivity.
Qed.

Lemma tuple_ltb_cons x a y b :
  tuple_ltb (x :: a) (y :: b) = true <-> x < y \/ (x = y /\ tuple_ltb a b = true).
Proof.
  cbn. rewrite orb_true_iff, andb_true_iff, Z.ltb_lt, Z.eqb_eq. reflexivity.
Qed.

Lemma tuple_ltb_trans a b c :
  tuple_ltb a b = true -> tuple_ltb b c = true -> tuple_ltb a c = true.
Proof.
  revert b c. induction a as [|x a IH]; intros [|y b] [|z c]; try discriminate;
    try reflexivity.
  rewrite !tuple_ltb_cons. intros [H|[-> H]] [H'|[-> H']]; eauto; left; lia.
Qed.

Lemma tuple_ltb_asym a b : tuple_ltb a b = true -> tuple_ltb b a = false.
Proof.
  intros H. destruct (tuple_ltb b a) eqn:H'; [ | reflexivity ].
  pose proof (tuple_ltb_trans _ _ _ H H') as Hc.
  rewrite tuple_ltb_irrefl in Hc. discriminate.
Qed.

Lemma tuple_ltb_total a b :
  List.length a = List.length b ->
  tuple_ltb a b = true \/ a = b \/ tuple_ltb b a = true.
Proof.
  revert b. induction a as [|x a IH]; intros [|y b]; try discriminate; auto.
  intros [= Hlen]. rewrite !tuple_ltb_cons.
  destruct (Z.lt_total x y) as [H|[->|H]]; auto.
  destruct (IH b Hlen) as [H|[->|H]]; auto.
Qed.

(** ** The calendar: ordinals and dates correspond *)

Module CalendarFacts.
Import PyDate.

(** Years written as [400a + 100b + 4c + e + 1], the way [ord2ymd] counts
    them. *)
Lemma dby_decompose a b c e :
  0 <= b <= 3 -> 0 <= c <= 24 -> 0 <= e <= 3 ->
  days_before_year (400 * a + 100 * b + 4 * c + e + 1)
  = DI400Y * a + DI100Y * b + DI4Y * c + 365 * e.
Proof.
  intros Hb Hc He. unfold days_before_year, DI400Y, DI100Y, DI4Y.
  Z.div_mod_to_equations; lia.
Qed.

Lemma is_leap_decompose a b c e :
  0 <= b <= 3 -> 0 <= c <= 24 -> 0 <= e <= 3 ->
  is_leap (400 * a + 100 * b + 4 * c + e + 1)
  = (e =? 3) && (negb (c =? 24) || (b =? 3)).
Proof.
  intros Hb Hc He. unfold is_leap.
  repeat match goal with
         | |- context [?x =? ?y] => destruct (Z.eqb_spec x y)
         end; cbn; try reflexivity; exfalso; Z.div_mod_to_equations; lia.
Qed.

Lemma dby_succ y :
  days_before_year (y + 1) = days_before_year y + days_in_year y.
Proof.
  unfold days_before_year, days_in_year, is_leap.
  repeat match goal with
         | |- context [?x =? ?y] => destruct (Z.eqb_spec x y)
         end; cbn [andb orb negb]; Z.div_mod_to_equations; lia.
Qed.

Lemma dby_mono y k : 0 <= k -> days_before_year y <= days_before_year (y + k).
Proof.
  revert k. apply natlike_ind.
  - rewrite Z.add_0_r. lia.
  - intros k Hk IH. replace (y + Z.succ k) with (y + k + 1) by lia.
    rewrite dby_succ. unfold days_in_year. destruct (is_leap (y + k)); lia.
Qed.

Lemma dby_lt y y' :
  y < y' -> days_before_year y + days_in_year y <= days_before_year y'.
Proof.
  intros Hlt. rewrite <- dby_succ.
  replace y' with (y + 1 + (y' - y - 1)) by lia. apply dby_mono. lia.
Qed.

Lemma month_day_table :
  forallb (month_day_ok false) (seq 0 365) = true /\
  forallb (month_day_ok true) (seq 0 366) = true.
Proof. split; vm_compute; reflexivity. Qed.

Lemma month_day_spec (leap : bool) (n : Z) :
  0 <= n < (if leap then 366 else 365) ->
  let '(m, d) := month_day leap n in
  1 <= m <= 12 /\
  1 <= d <= DAYS_IN_MONTH m + (if (m =? 2) && leap then 1 else 0) /\
  DAYS_BEFORE_MONTH m + (if (2 <? m) && leap then 1 else 0) + d = n + 1.
Proof.
  intros Hn.
  assert (Hok : month_day_ok leap (Z.to_nat n) = true).
  { destruct month_day_table as [H0 H1].
    destruct leap; [ eapply forallb_forall in H1 | eapply forallb_forall in H0 ];
      try eassumption; apply in_seq; lia. }
  unfold month_day_ok in Hok. rewrite Z2Nat.id in Hok by lia.
  destruct (month_day leap n) as [m d].
  repeat (apply andb_prop in Hok; destruct Hok as [Hok ?]).
  repeat match goal with
         | H : (_ <=? _) = true |- _ => apply Z.leb_le in H
         | H : (_ =? _) = true |- _ => apply Z.eqb_eq in H
         end.
  lia.
Qed.

Ltac calc := cbn -[Z.mul Z.add Z.sub].

(** [ord2ymd] yields a valid date and [ymd2ord] takes it back. *)
Lemma ord2ymd_spec (n : Z) :
  1 <= n <= MAXORDINAL ->
  let '(y, m, d) := ord2ymd n in
  MINYEAR <= y <= MAXYEAR /\ 1 <= m <= 12 /\ 1 <= d <= days_in_month y m /\
  ymd2ord y m d = n.
Proof.
  intros Hn. unfold ord2ymd, MAXORDINAL, MINYEAR, MAXYEAR in *.
  pose proof (Z.div_mod (n - 1) DI400Y ltac:(discriminate)) as E400.
  pose proof (Z.mod_pos_bound (n - 1) DI400Y eq_refl) as B400.
  set (n400 := (n - 1) / DI400Y) in *. set (r400 := (n - 1) mod DI400Y) in *.
  pose proof (Z.div_mod r400 DI100Y ltac:(discriminate)) as E100.
  pose proof (Z.mod_pos_bound r400 DI100Y eq_refl) as B100.
  set (n100 := r400 / DI100Y) in *. set (r100 := r400 mod DI100Y) in *.
  pose proof (Z.div_mod r100 DI4Y ltac:(discriminate)) as E4.
  pose proof (Z.mod_pos_bound r100 DI4Y eq_refl) as B4.
  set (n4 := r100 / DI4Y) in *. set (r4 := r100 mod DI4Y) in *.
  pose proof (Z.div_mod r4 365 ltac:(discriminate)) as E1.
  pose proof (Z.mod_pos_bound r4 365 eq_refl) as B1.
  set (n1 := r4 / 365) in *. set (r1 := r4 mod 365) in *.
  unfold DI400Y, DI100Y, DI4Y in *.
  assert (0 <= n400 <= 24) as Bn400 by lia.
  assert (0 <= n100 <= 4) as Bn100 by lia.
  assert (0 <= n4 <= 24) as Bn4 by lia.
  assert (0 <= n1 <= 4) as Bn1 by lia.
  destruct (Z.eqb_spec n1 4) as [Hn1|Hn1]; cbn [orb].
  - (* December 31st of a leap year that no century closes *)
    assert (n100 <= 3 /\ n4 <= 23 /\ r1 = 0) as (?&?&?) by lia.
    replace (n400 * 400 + 1 + n100 * 100 + n4 * 4 + n1 - 1)
      with (400 * n400 + 100 * n100 + 4 * n4 + 3 + 1) by lia.
    unfold ymd2ord, days_in_month, days_before_month.
    rewrite dby_decompose, is_leap_decompose by lia.
    unfold DI400Y, DI100Y, DI4Y.
    replace (n4 =? 24) with false by (symmetry; apply Z.eqb_neq; lia).
    calc. lia.
  - destruct (Z.eqb_spec n100 4) as [Hn100|Hn100].
    + (* December 31st of a year divisible by 400 *)
      assert (n4 = 0 /\ n1 = 0 /\ r1 = 0) as (?&?&?) by lia.
      replace (n400 * 400 + 1 + n100 * 100 + n4 * 4 + n1 - 1)
        with (400 * n400 + 100 * 3 + 4 * 24 + 3 + 1) by lia.
      unfold ymd2ord, days_in_month, days_before_month.
      rewrite dby_decompose, is_leap_decompose by lia.
      unfold DI400Y, DI100Y, DI4Y. calc. lia.
    + set (leapyear := (n1 =? 3) && (negb (n4 =? 24) || (n100 =? 3))).
      pose proof (month_day_spec leapyear r1) as Hmd.
      destruct (month_day leapyear r1) as [m d].
      replace (n400 * 400 + 1 + n100 * 100 + n4 * 4 + n1)
        with (400 * n400 + 100 * n100 + 4 * n4 + n1 + 1) by lia.
      unfold ymd2ord, days_in_month, days_before_month.
      rewrite dby_decompose, is_leap_decompose by lia.
      fold leapyear. unfold DI400Y, DI100Y, DI4Y.
      destruct Hmd as (Hm & Hd & Hsum); [ destruct leapyear; lia | ].
      repeat split; try lia.
      destruct (Z.eqb_spec m 2) as [->|]; destruct leapyear; cbn -[Z.mul Z.add Z.sub] in *; lia.
Qed.

Ltac month_cases m :=
  let H := fresh in
  assert (H : m = 1 \/ m = 2 \/ m = 3 \/ m = 4 \/ m = 5 \/ m = 6 \/ m = 7 \/
              m = 8 \/ m = 9 \/ m = 10 \/ m = 11 \/ m = 12) by lia;
  repeat (destruct H as [H | H]; [ subst m | ]); [ .. | subst m ].

Lemma day_of_year_bound y m d :
  1 <= m <= 12 -> 1 <= d <= days_in_month y m ->
  1 <= days_before_month y m + d <= days_in_year y.
Proof.
  intros Hm. unfold days_in_month, days_before_month, days_in_year.
  month_cases m; destruct (is_leap y); calc; lia.
Qed.

Lemma days_before_month_lt y m m' d :
  1 <= m -> m < m' -> m' <= 12 -> d <= days_in_month y m ->
  days_before_month y m + d <= days_before_month y m'.
Proof.
  intros H1 Hlt H12. unfold days_in_month, days_before_month.
  month_cases m; month_cases m'; try lia; destruct (is_leap y); calc; lia.
Qed.

End CalendarFacts.

(** ** Dates: order, ordinals, weekdays *)

Module DateFacts.
Import PyDate CalendarFacts.

Lemma lt_cases a b :
  lt a b <->
  year a < year b \/
  (year a = year b /\
   (month a < month b \/ (month a = month b /\ day a < day b))).
Proof.
  unfold lt, ltb, astuple. rewrite !tuple_ltb_cons. cbn [tuple_ltb].
  intuition (try discriminate; auto).
Qed.

Lemma lt_irrefl a : ~ lt a a.
Proof. unfold lt, ltb. rewrite tuple_ltb_irrefl. discriminate. Qed.

Lemma lt_trans a b c : lt a b -> lt b c -> lt a c.
Proof. apply tuple_ltb_trans. Qed.

Lemma lt_trichotomy a b : lt a b \/ a = b \/ lt b a.
Proof.
  destruct (tuple_ltb_total (astuple a) (astuple b) eq_refl) as [H|[H|H]]; auto.
  right; left. destruct a, b. injection H as -> -> ->. reflexivity.
Qed.

Lemma le_cases a b : le a b <-> lt a b \/ a = b.
Proof.
  unfold le. split.
  - intros H. destruct (lt_trichotomy a b) as [?|[?|Hlt]]; auto.
    unfold lt in Hlt. congruence.
  - intros [H| ->]; [ apply tuple_ltb_asym, H | apply tuple_ltb_irrefl ].
Qed.

Lemma toordinal_lt a b : valid a -> valid b -> lt a b -> toordinal a < toordinal b.
Proof.
  intros (Hya & Hma & Hda) (Hyb & Hmb & Hdb). rewrite lt_cases.
  unfold toordinal, ymd2ord.
  pose proof (day_of_year_bound _ _ _ Hma Hda).
  pose proof (day_of_year_bound _ _ _ Hmb Hdb).
  intros [Hy|[Hy [Hm|[Hm Hd]]]].
  - pose proof (dby_lt _ _ Hy). lia.
  - rewrite Hy in *.
    pose proof (days_before_month_lt (year b) (month a) (month b) (day a)
                  ltac:(lia) Hm ltac:(lia) ltac:(lia)).
    lia.
  - rewrite Hy, Hm. lia.
Qed.

Lemma toordinal_inj a b : valid a -> valid b -> toordinal a = toordinal b -> a = b.
Proof.
  intros Ha Hb E. destruct (lt_trichotomy a b) as [H|[H|H]]; auto;
    apply toordinal_lt in H; auto; lia.
Qed.

Lemma toordinal_range d : valid d -> 1 <= toordinal d <= MAXORDINAL.
Proof.
  intros (Hy & Hm & Hd). unfold toordinal, ymd2ord, MINYEAR, MAXYEAR in *.
  pose proof (day_of_year_bound _ _ _ Hm Hd).
  pose proof (dby_mono 1 (year d - 1) ltac:(lia)) as Hlo.
  replace (1 + (year d - 1)) with (year d) in Hlo by lia.
  pose proof (dby_lt (year d) 10000 ltac:(lia)) as Hhi.
  change (days_before_year 1) with 0 in Hlo.
  change (days_before_year 10000) with MAXORDINAL in Hhi. lia.
Qed.

Lemma fromordinal_valid n : 1 <= n <= MAXORDINAL -> valid (fromordinal n).
Proof.
  intros Hn. pose proof (ord2ymd_spec n Hn) as H. unfold fromordinal, valid.
  destruct (ord2ymd n) as [[y m] d]. cbn. tauto.
Qed.

Lemma toordinal_fromordinal n :
  1 <= n <= MAXORDINAL -> toordinal (fromordinal n) = n.
Proof.
  intros Hn. pose proof (ord2ymd_spec n Hn) as H. unfold fromordinal, toordinal.
  destruct (ord2ymd n) as [[y m] d]. cbn. tauto.
Qed.

Lemma fromordinal_toordinal d : valid d -> fromordinal (toordinal d) = d.
Proof.
  intros Hd. pose proof (toordinal_range d Hd) as Hr.
  apply toordinal_inj; auto using fromordinal_valid, toordinal_fromordinal.
Qed.

Lemma fromordinal_lt n n' :
  1 <= n -> n < n' -> n' <= MAXORDINAL -> lt (fromordinal n) (fromordinal n').
Proof.
  intros H1 Hlt Hmax.
  destruct (lt_trichotomy (fromordinal n) (fromordinal n')) as [H|[H|H]]; auto.
  - apply (f_equal toordinal) in H. rewrite !toordinal_fromordinal in H; lia.
  - apply toordinal_lt in H; try (apply fromordinal_valid; lia).
    rewrite !toordinal_fromordinal in H; lia.
Qed.

Lemma le_toordinal a b : valid a -> valid b -> (le a b <-> toordinal a <= toordinal b).
Proof.
  intros Ha Hb. rewrite le_cases. split.
  - intros [H| ->]; [ apply toordinal_lt in H; auto; lia | lia ].
  - intros H. destruct (lt_trichotomy a b) as [?|[?|Hlt]]; auto.
    apply toordinal_lt in Hlt; auto; lia.
Qed.

Lemma lt_toordinal a b : valid a -> valid b -> (lt a b <-> toordinal a < toordinal b).
Proof.
  intros Ha Hb. split; [ apply toordinal_lt; assumption | ].
  intros H. destruct (lt_trichotomy a b) as [?|[->|Hlt]]; auto; [ lia | ].
  apply toordinal_lt in Hlt; auto; lia.
Qed.

Lemma new_Ok y m d v : PyDate.new y m d = Ok v -> v = mkdate y m d /\ valid v.
Proof.
  unfold PyDate.new, check_date_fields.
  destruct (fits_c_int y && fits_c_int m && fits_c_int d); [ | discriminate ].
  destruct (_ && _) eqn:E; [ | discriminate ].
  intros [= <-]. split; [ reflexivity | ].
  repeat (apply andb_prop in E; destruct E as [E ?]).
  unfold valid; cbn. repeat match goal with
                            | H : (_ <=? _) = true |- _ => apply Z.leb_le in H
                            end. lia.
Qed.

Lemma valid_check d : valid d -> check_date_fields (year d) (month d) (day d) = true.
Proof.
  intros (Hy & Hm & Hd). unfold check_date_fields.
  repeat (apply andb_true_intro; split); apply Z.leb_le; lia.
Qed.

Lemma days_in_month_le_31 y m : days_in_month y m <= 31.
Proof.
  unfold days_in_month. destruct (_ && _); [ lia | ].
  destruct m as [|p|p]; cbn; try lia.
  do 4 (destruct p as [p|p|]; cbn; try lia).
Qed.

Lemma valid_fits d :
  valid d ->
  fits_c_int (year d) && fits_c_int (month d) && fits_c_int (day d) = true.
Proof.
  intros (Hy & Hm & Hd). pose proof (days_in_month_le_31 (year d) (month d)).
  unfold MINYEAR, MAXYEAR in Hy. unfold fits_c_int.
  repeat (apply andb_true_intro; split);
    first [ apply Z.leb_le | apply Z.ltb_lt ]; lia.
Qed.

(** [date(y, m, d)] accepts exactly the valid dates. *)
Lemma new_valid d : valid d -> PyDate.new (year d) (month d) (day d) = Ok d.
Proof.
  intros Hd. unfold PyDate.new. rewrite valid_fits, valid_check by exact Hd.
  destruct d; reflexivity.
Qed.

Lemma add_days_Ok d n :
  valid d -> 1 <= toordinal d + n <= MAXORDINAL ->
  add_days d n = Ok (fromordinal (toordinal d + n)).
Proof.
  intros _ Hr. unfold add_days.
  replace (0 <? toordinal d + n) with true by (symmetry; apply Z.ltb_lt; lia).
  replace (toordinal d + n <=? MAXORDINAL) with true
    by (symmetry; apply Z.leb_le; lia).
  reflexivity.
Qed.

Lemma add_days_inv d n v :
  add_days d n = Ok v ->
  1 <= toordinal d + n <= MAXORDINAL /\ v = fromordinal (toordinal d + n).
Proof.
  unfold add_days. destruct (Z.ltb_spec 0 (toordinal d + n)); cbn [andb];
    [ | discriminate ].
  destruct (Z.leb_spec (toordinal d + n) MAXORDINAL); [ | discriminate ].
  intros [= <-]. split; [ lia | reflexivity ].
Qed.

End DateFacts.

(** ** [sunday_on_or_before] and the calendar grid *)

Module GridFacts.
Import PyDate CalendarFacts DateFacts.

(** The offset taken off is the ordinal modulo 7: ordinal 7 is a Sunday. *)
Lemma sunday_offset d : (weekday d + 1) mod 7 = toordinal d mod 7.
Proof. unfold weekday. Z.div_mod_to_equations; lia. Qed.

Lemma sunday_Ok d :
  valid d -> 7 <= toordinal d ->
  sunday_on_or_before d = Ok (fromordinal (toordinal d - toordinal d mod 7)).
Proof.
  intros Hd H7. unfold sunday_on_or_before, sub_days. rewrite sunday_offset.
  pose proof (toordinal_range d Hd).
  rewrite add_days_Ok; [ reflexivity | assumption | ].
  Z.div_mod_to_equations; lia.
Qed.

Lemma sunday_inv d s :
  sunday_on_or_before d = Ok s ->
  7 <= toordinal d /\ s = fromordinal (toordinal d - toordinal d mod 7).
Proof.
  unfold sunday_on_or_before, sub_days. rewrite sunday_offset.
  intros [Hr ->]%add_days_inv. split; [ | reflexivity ].
  Z.div_mod_to_equations; lia.
Qed.

Lemma comprehension_In {A B : Type} (f : A -> result B) l bs a :
  comprehension f l = Ok bs -> In a l -> exists b, f a = Ok b.
Proof.
  intros H%comprehension_inv. induction H as [|a' b l bs Hab _ IH]; cbn.
  - tauto.
  - intros [<-|Hin]; eauto.
Qed.

Lemma grid_from_Ok start :
  valid start -> toordinal start + 370 <= MAXORDINAL ->
  comprehension
    (fun x => comprehension
                (fun y => add_days start (7 * Z.of_nat x + Z.of_nat y))
                (range 7))
    (range 53)
  = Ok (grid_from (toordinal start)).
Proof.
  intros Hv Hmax. pose proof (toordinal_range start Hv).
  unfold grid_from. apply comprehension_Ok. intros x Hx%in_seq.
  apply comprehension_Ok. intros y Hy%in_seq.
  apply add_days_Ok; [ assumption | lia ].
Qed.

(** What a defined grid looks like. *)
Lemma grid_inv Y g :
  all_dates_for_year_grid Y = Ok g ->
  exists jan1 start,
    PyDate.new Y 1 1 = Ok jan1 /\ sunday_on_or_before jan1 = Ok start /\
    valid start /\ toordinal start + 370 <= MAXORDINAL /\
    g = grid_from (toordinal start).
Proof.
  unfold all_dates_for_year_grid.
  intros (jan1 & Hjan & H)%bind_Ok_inv. apply bind_Ok_inv in H as (start & Hs & H).
  exists jan1, start. destruct (new_Ok _ _ _ _ Hjan) as [_ Hv1].
  pose proof (toordinal_range _ Hv1).
  destruct (sunday_inv _ _ Hs) as [H7 E].
  assert (Hv : valid start).
  { rewrite E. apply fromordinal_valid. Z.div_mod_to_equations; lia. }
  assert (Hmax : toordinal start + 370 <= MAXORDINAL).
  { destruct (comprehension_In _ _ _ 52%nat H) as [w Hw]; [ apply in_seq; lia | ].
    destruct (comprehension_In _ _ _ 6%nat Hw) as [c Hc]; [ apply in_seq; lia | ].
    apply add_days_inv in Hc. cbn in Hc. lia. }
  rewrite grid_from_Ok in H by assumption. injection H as <-. auto.
Qed.

Lemma jan1_ordinal Y : toordinal (mkdate Y 1 1) = days_before_year Y + 1.
Proof. unfold toordinal, ymd2ord, days_before_month. cbn. lia. Qed.

Lemma grid_defined Y :
  2 <= Y <= 9998 -> exists g, all_dates_for_year_grid Y = Ok g.
Proof.
  intros HY. unfold all_dates_for_year_grid.
  set (jan1 := mkdate Y 1 1).
  assert (Hv : valid jan1).
  { unfold valid, MINYEAR, MAXYEAR, days_in_month. cbn. lia. }
  assert (Hn : PyDate.new Y 1 1 = Ok jan1) by exact (new_valid jan1 Hv).
  rewrite Hn. cbn [bind].
  pose proof (jan1_ordinal Y) as Ho. fold jan1 in Ho.
  pose proof (dby_mono 2 (Y - 2) ltac:(lia)) as Hlo.
  pose proof (dby_mono Y (9998 - Y) ltac:(lia)) as Hhi.
  replace (2 + (Y - 2)) with Y in Hlo by lia.
  replace (Y + (9998 - Y)) with 9998 in Hhi by lia.
  change (days_before_year 2) with 365 in Hlo.
  change (days_before_year 9998) with 3651329 in Hhi.
  rewrite sunday_Ok by (auto; lia). cbn [bind].
  set (o := toordinal jan1 - toordinal jan1 mod 7).
  assert (Ho' : 1 <= o <= toordinal jan1)
    by (subst o; Z.div_mod_to_equations; lia).
  pose proof (fromordinal_valid o ltac:(unfold MAXORDINAL; lia)).
  pose proof (toordinal_fromordinal o ltac:(unfold MAXORDINAL; lia)) as Eo.
  rewrite grid_from_Ok; eauto. rewrite Eo. unfold MAXORDINAL. lia.
Qed.

Lemma grid_undefined_1 : all_dates_for_year_grid 1 = Raise OverflowError.
Proof. vm_compute. reflexivity. Qed.

Lemma grid_undefined_9999 : all_dates_for_year_grid 9999 = Raise OverflowError.
Proof. vm_compute. reflexivity. Qed.

Lemma grid_defined_inv Y g : all_dates_for_year_grid Y = Ok g -> 2 <= Y <= 9998.
Proof.
  intros H. destruct (grid_inv _ _ H) as (jan1 & _ & Hj & _).
  apply new_Ok in Hj as [-> (Hy & _)]. cbn in Hy. unfold MINYEAR, MAXYEAR in Hy.
  assert (Y = 1 \/ Y = 9999 \/ 2 <= Y <= 9998) as [->|[->|?]] by lia; auto.
  - rewrite grid_undefined_1 in H. discriminate.
  - rewrite grid_undefined_9999 in H. discriminate.
Qed.

(** Before the first Sunday of the calendar there is none to return. *)
Lemma sunday_first_week d :
  valid d -> toordinal d < 7 -> sunday_on_or_before d = Raise OverflowError.
Proof.
  intros Hd H7. destruct (sunday_on_or_before d) as [s|e] eqn:E.
  - apply sunday_inv in E. lia.
  - unfold sunday_on_or_before, sub_days, add_days in E.
    destruct (_ && _); congruence.
Qed.

(** Which exception a year without grid raises. *)
Lemma grid_raises Y :
  ~ 2 <= Y <= 9998 ->
  all_dates_for_year_grid Y
  = Raise (if fits_c_int Y && negb (Y =? 1) && negb (Y =? 9999)
           then ValueError else OverflowError).
Proof.
  intros HY. destruct (Z.eqb_spec Y 1) as [->|H1]; [ reflexivity | ].
  destruct (Z.eqb_spec Y 9999) as [->|H9]; [ apply grid_undefined_9999 | ].
  unfold all_dates_for_year_grid, PyDate.new.
  destruct (fits_c_int Y); [ | reflexivity ].
  change (fits_c_int 1) with true. cbn [andb negb].
  replace (check_date_fields Y 1 1) with false; [ reflexivity | ].
  symmetry. unfold check_date_fields, MINYEAR, MAXYEAR.
  destruct (Z.leb_spec 1 Y); [ | reflexivity ].
  destruct (Z.leb_spec Y 9999); [ lia | reflexivity ].
Qed.

Lemma grid_from_at o x y :
  (x < 53)%nat -> (y < 7)%nat ->
  grid_at (grid_from o) x y
  = Some (fromordinal (o + (7 * Z.of_nat x + Z.of_nat y))).
Proof.
  intros Hx Hy. unfold grid_at, grid_from, range.
  rewrite nth_error_map, nth_error_seq.
  destruct (Nat.ltb_spec x 53) as [_|?]; [ | lia ]. cbn [option_map].
  rewrite nth_error_map, nth_error_seq.
  destruct (Nat.ltb_spec y 7) as [_|?]; [ | lia ]. reflexivity.
Qed.

Lemma grid_from_shape o : has_shape 53 7 (grid_from o).
Proof.
  unfold has_shape, grid_from, range. rewrite length_map, length_seq.
  split; [ reflexivity | ]. apply Forall_map, Forall_forall. intros x _.
  rewrite length_map, length_seq. reflexivity.
Qed.

End GridFacts.

(** ** [list.sort()] sorts, permutes, and leaves an increasing list alone *)

Section SortFacts.
Context {A : Type} (ltb : A -> A -> bool).

Let lt (a b : A) : Prop := ltb a b = true.
Let le (a b : A) : Prop := ltb b a = false.

Hypothesis ltb_asym : forall a b, ltb a b = true -> ltb b a = false.
Hypothesis le_trans : forall a b c, le a b -> le b c -> le a c.

Lemma insert_sorted_perm a l : Permutation (insert_sorted ltb a l) (a :: l).
Proof.
  induction l as [|b l IH]; cbn; [ reflexivity | ].
  destruct (ltb a b); [ reflexivity | ].
  rewrite IH. apply perm_swap.
Qed.

Lemma sort_loop_perm l acc :
  Permutation (fold_left (fun acc a => insert_sorted ltb a acc) l acc)
              (acc ++ l).
Proof.
  revert acc. induction l as [|a l IH]; intros acc; cbn.
  - rewrite app_nil_r. reflexivity.
  - rewrite IH, insert_sorted_perm. apply Permutation_middle.
Qed.

Lemma list_sort_perm l : Permutation (list_sort ltb l) l.
Proof. apply (sort_loop_perm l []). Qed.

Lemma insert_sorted_hd a b l :
  le b a -> HdRel le b l -> HdRel le b (insert_sorted ltb a l).
Proof.
  intros Hba Hl. destruct l as [|c l]; cbn; [ constructor; exact Hba | ].
  destruct (ltb a c); constructor; [ exact Hba | ].
  inversion Hl; assumption.
Qed.

Lemma insert_sorted_sorted a l :
  Sorted le l -> Sorted le (insert_sorted ltb a l).
Proof.
  induction 1 as [|b l Hl IH Hb]; cbn.
  - repeat constructor.
  - destruct (ltb a b) eqn:E.
    + constructor; [ constructor; assumption | ].
      constructor. apply ltb_asym, E.
    + constructor; [ exact IH | ]. apply insert_sorted_hd; assumption.
Qed.

Lemma sort_loop_sorted l acc :
  Sorted le acc ->
  Sorted le (fold_left (fun acc a => insert_sorted ltb a acc) l acc).
Proof.
  revert acc. induction l as [|a l IH]; intros acc Hacc; cbn; [ assumption | ].
  apply IH, insert_sorted_sorted, Hacc.
Qed.

Lemma list_sort_sorted l : StronglySorted le (list_sort ltb l).
Proof.
  apply Sorted_StronglySorted; [ exact le_trans | ].
  apply sort_loop_sorted. constructor.
Qed.

Lemma insert_sorted_last a l :
  Forall (fun b => lt b a) l -> insert_sorted ltb a l = l ++ [a].
Proof.
  induction 1 as [|b l Hb _ IH]; cbn; [ reflexivity | ].
  rewrite (ltb_asym _ _ Hb), IH. reflexivity.
Qed.

Lemma sort_loop_increasing l acc :
  StronglySorted lt (acc ++ l) ->
  fold_left (fun acc a => insert_sorted ltb a acc) l acc = acc ++ l.
Proof.
  revert acc. induction l as [|a l IH]; intros acc H; cbn.
  - rewrite app_nil_r. reflexivity.
  - assert (Hacc : Forall (fun b => lt b a) acc).
    { clear IH. induction acc as [|b acc IHacc]; [ constructor | ].
      cbn in H. inversion H as [|? ? Hs Hf]; subst. constructor.
      - rewrite Forall_forall in Hf. apply Hf, in_or_app. right. left.
        reflexivity.
      - apply IHacc, Hs. }
    rewrite insert_sorted_last by exact Hacc.
    rewrite IH; rewrite <- app_assoc; [ reflexivity | exact H ].
Qed.

Lemma list_sort_increasing l : StronglySorted lt l -> list_sort ltb l = l.
Proof. intros H. apply (sort_loop_increasing l [] H). Qed.

End SortFacts.

(** ** Timestamps *)

Module DateTimeFacts.

Lemma dt_ltb_asym a b : PyDateTime.ltb a b = true -> PyDateTime.ltb b a = false.
Proof. apply tuple_ltb_asym. Qed.

Lemma dt_lt_irrefl a : ~ PyDateTime.lt a a.
Proof.
  unfold PyDateTime.lt, PyDateTime.ltb. rewrite tuple_ltb_irrefl. discriminate.
Qed.

Lemma dt_le_trans a b c :
  PyDateTime.le a b -> PyDateTime.le b c -> PyDateTime.le a c.
Proof.
  unfold PyDateTime.le, PyDateTime.ltb. intros Hab Hbc.
  destruct (tuple_ltb (PyDateTime.astuple c) (PyDateTime.astuple a)) eqn:Hca;
    [ exfalso | reflexivity ].
  destruct (tuple_ltb_total (PyDateTime.astuple a) (PyDateTime.astuple b) eq_refl)
    as [H|[H|H]].
  - rewrite (tuple_ltb_trans _ _ _ Hca H) in Hbc. discriminate.
  - rewrite H in Hca. congruence.
  - congruence.
Qed.

Lemma noon_ltb a b : PyDateTime.ltb (noon a) (noon b) = PyDate.ltb a b.
Proof.
  unfold PyDateTime.ltb, PyDate.ltb, PyDateTime.astuple, PyDate.astuple, noon.
  cbn. rewrite !andb_false_r, !orb_false_r. reflexivity.
Qed.

Lemma noon_lt a b : PyDate.lt a b -> PyDateTime.lt (noon a) (noon b).
Proof. unfold PyDate.lt, PyDateTime.lt. rewrite noon_ltb. auto. Qed.

(** [datetime(d.year, d.month, d.day, 12, 0, 0)] accepts every valid date. *)
Lemma new_noon d :
  PyDate.valid d ->
  PyDateTime.new (PyDate.year d) (PyDate.month d) (PyDate.day d) 12 0 0
  = Ok (noon d).
Proof.
  intros Hd. unfold PyDateTime.new.
  pose proof (DateFacts.valid_fits d Hd) as Hf.
  replace (fits_c_int (PyDate.year d) && fits_c_int (PyDate.month d)
           && fits_c_int (PyDate.day d) && fits_c_int 12 && fits_c_int 0
           && fits_c_int 0) with true by (rewrite Hf; reflexivity).
  rewrite DateFacts.valid_check by exact Hd. reflexivity.
Qed.

End DateTimeFacts.

(** ** The rasterizer *)

Module RasterFacts.
Import PIL.

Lemma scan_row_blank im y st :
  (forall x, (x < xsize im)%nat -> pixel im x y = 0) ->
  bbox_scan_row im y st = st.
Proof.
  intros Hz. unfold bbox_scan_row. destruct st as [[[x0 y0] x1] y1].
  assert (E : forall l acc,
             Forall (fun x => (x < xsize im)%nat) l ->
             fold_left
               (fun (acc : nat * nat * bool) (x : nat) =>
                  let '(l, r, h) := acc in
                  if pixel im x y =? 0 then acc
                  else ((if x <? l then x else l)%nat,
                        (if r <=? x then S x else r)%nat, true))
               l acc = acc).
  { induction l as [|x l IH]; intros acc Hl; [ reflexivity | ].
    inversion Hl; subst. cbn [fold_left]. destruct acc as [[l0 r0] h0].
    rewrite Hz by assumption. cbn. apply IH. assumption. }
  rewrite E; [ reflexivity | ].
  apply Forall_forall. intros x Hx%in_seq. lia.
Qed.

(** An image without a lit pixel has no bounding box. *)
Lemma getbbox_blank im :
  (forall x y, (x < xsize im)%nat -> (y < ysize im)%nat -> pixel im x y = 0) ->
  getbbox im = None.
Proof.
  intros Hz. unfold getbbox.
  assert (E : forall l st,
             Forall (fun y => (y < ysize im)%nat) l ->
             fold_left (fun st y => bbox_scan_row im y st) l st = st).
  { induction l as [|y l IH]; intros st Hl; [ reflexivity | ].
    inversion Hl; subst. cbn [fold_left]. rewrite scan_row_blank by auto.
    apply IH. assumption. }
  rewrite E; [ reflexivity | ].
  apply Forall_forall. intros y Hy%in_seq. lia.
Qed.

Lemma repeat_shape {A : Type} (a : A) n m : has_shape n m (repeat (repeat a m) n).
Proof.
  split; [ apply repeat_length | ].
  apply Forall_forall. intros r ->%repeat_spec. apply repeat_length.
Qed.

(** Reading the 53x7 thumbnail never leaves it. *)
Lemma read_small im :
  comprehension
    (fun y => comprehension
                (fun x => v <- getpixel (resize_nearest im 53 7) x y ;;
                          Ok (negb (v =? 0)))
                (range 53))
    (range 7)
  = Ok (map (fun y => map (fun x => negb (pixel (resize_nearest im 53 7) x y =? 0))
                          (range 53))
            (range 7)).
Proof.
  apply comprehension_Ok. intros y Hy%in_seq.
  apply comprehension_Ok. intros x Hx%in_seq.
  unfold getpixel. cbn [xsize ysize resize_nearest].
  destruct (Nat.ltb_spec x 53); [ | lia ]. destruct (Nat.ltb_spec y 7); [ | lia ].
  reflexivity.
Qed.

Lemma rasterize_shape draw_text text :
  exists pix, rasterize_text_to_53x7 draw_text text = Ok pix /\ has_shape 7 53 pix.
Proof.
  unfold rasterize_text_to_53x7.
  destruct (getbbox (draw_text (PIL.new 1200 200 0) text)) as [box|].
  - rewrite read_small. eexists. split; [ reflexivity | ].
    split; [ unfold range; rewrite length_map, length_seq; reflexivity | ].
    apply Forall_map, Forall_forall. intros y _.
    unfold range. rewrite length_map, length_seq. reflexivity.
  - eexists. split; [ reflexivity | apply repeat_shape ].
Qed.

Lemma shape_at {A : Type} n m (g : list (list A)) i j :
  has_shape n m g -> (i < n)%nat -> (j < m)%nat ->
  exists r a, nth_error g i = Some r /\ nth_error r j = Some a.
Proof.
  intros [Hn Hm] Hi Hj.
  destruct (nth_error g i) as [r|] eqn:Er.
  - rewrite Forall_forall in Hm. pose proof (Hm r (nth_error_In _ _ Er)) as Hr.
    destruct (nth_error r j) as [a|] eqn:Ea; eauto.
    apply nth_error_None in Ea. lia.
  - apply nth_error_None in Er. lia.
Qed.

End RasterFacts.

(** ** The schedule loop *)

Module ScheduleFacts.
Import DateFacts GridFacts DateTimeFacts RasterFacts.

Lemma cells_steps : cells = map cell_of_step (seq 0 371).
Proof. reflexivity. Qed.

Lemma in_cells x y : In (x, y) cells <-> (x < 53)%nat /\ (y < 7)%nat.
Proof.
  unfold cells, range. rewrite in_flat_map. split.
  - intros (x' & Hx%in_seq & Hy%in_map_iff). destruct Hy as (y' & [= <- <-] & Hy%in_seq).
    lia.
  - intros [Hx Hy]. exists x. split; [ apply in_seq; lia | ].
    apply in_map, in_seq. lia.
Qed.

Lemma NoDup_cells : NoDup cells.
Proof.
  rewrite cells_steps. apply Finite.Injective_map_NoDup_in; [ | apply seq_NoDup ].
  intros a b _ _ E.
  pose proof (f_equal fst E) as Hq. pose proof (f_equal snd E) as Hr.
  unfold cell_of_step in Hq, Hr. cbn [fst snd] in Hq, Hr.
  pose proof (Nat.div_mod_eq a 7). pose proof (Nat.div_mod_eq b 7). lia.
Qed.

Lemma flat_map_cells {T : Type} (f : nat * nat -> list T) :
  flat_map (fun x => flat_map (fun y => f (x, y)) (range 7)) (range 53)
  = flat_map f cells.
Proof.
  unfold cells. induction (range 53) as [|x l IH]; cbn [flat_map]; [ reflexivity | ].
  rewrite flat_map_app, IH. reflexivity.
Qed.

(** Dropping entries from an increasing list keeps it increasing. *)
Lemma flat_map_sorted {A T : Type} (R : T -> T -> Prop) (f : A -> list T)
      (h : A -> T) l :
  (forall c, In c l -> f c = [] \/ f c = [h c]) ->
  StronglySorted R (map h l) -> StronglySorted R (flat_map f l).
Proof.
  induction l as [|c l IH]; cbn; intros Hc H; [ constructor | ].
  inversion H as [|? ? Hs Hf]; subst.
  assert (Hl : StronglySorted R (flat_map f l)) by auto.
  destruct (Hc c (or_introl eq_refl)) as [-> | ->]; [ exact Hl | ].
  cbn. constructor; [ exact Hl | ].
  rewrite Forall_forall in *. intros t (c' & Hin & Ht)%in_flat_map.
  destruct (Hc c' (or_intror Hin)) as [E | E]; rewrite E in Ht;
    [ destruct Ht | ].
  destruct Ht as [<-|[]]. apply Hf, in_map, Hin.
Qed.

Section Loop.
Variables (pix : list (list bool)) (o Y : Z).
Hypothesis pix_shape : has_shape 7 53 pix.
Hypothesis o_lo : 1 <= o.
Hypothesis o_hi : o + 370 <= PyDate.MAXORDINAL.

Lemma schedule_cell_step x y sel :
  (x < 53)%nat -> (y < 7)%nat ->
  schedule_cell pix (grid_from o) Y x sel y
  = Ok (sel ++ cell_entries pix (grid_from o) Y (x, y)).
Proof.
  intros Hx Hy. unfold schedule_cell, cell_entries.
  destruct (shape_at _ _ _ y x pix_shape Hy Hx) as (row & lit & Er & El).
  pose proof (grid_from_at o x y Hx Hy) as Ed.
  rewrite Ed. unfold grid_at in *. rewrite Er, El.
  rewrite (getitem_Ok _ _ _ Er). cbn [bind]. rewrite (getitem_Ok _ _ _ El).
  cbn [bind]. destruct lit; cbn [negb]; [ | rewrite app_nil_r; reflexivity ].
  destruct (nth_error (grid_from o) x) as [week|] eqn:Ew; [ | discriminate ].
  rewrite (getitem_Ok _ _ _ Ew). cbn [bind]. rewrite (getitem_Ok _ _ _ Ed).
  cbn [bind].
  destruct (PyDate.year _ =? Y); cbn [negb]; [ | rewrite app_nil_r; reflexivity ].
  rewrite new_noon; [ reflexivity | ].
  apply fromordinal_valid. lia.
Qed.

Lemma schedule_loop :
  for_each (fun sel x =>
              for_each (schedule_cell pix (grid_from o) Y x) (range 7) sel)
           (range 53) []
  = Ok (flat_map (cell_entries pix (grid_from o) Y) cells).
Proof.
  rewrite <- flat_map_cells.
  apply (for_each_app _ (fun x => flat_map (fun y => cell_entries pix (grid_from o) Y (x, y))
                                           (range 7))).
  intros sel x Hx%in_seq. apply for_each_app.
  intros sel' y Hy%in_seq. apply schedule_cell_step; lia.
Qed.

(** A cell contributes nothing or the noon of its own date. *)
Lemma cell_entries_cases c :
  In c cells ->
  cell_entries pix (grid_from o) Y c = [] \/
  (cell_entries pix (grid_from o) Y c = [cell_noon o c] /\
   PyDateTime.year (cell_noon o c) = Y).
Proof.
  destruct c as [x y]. intros [Hx Hy]%in_cells.
  unfold cell_entries, cell_noon, cell_date.
  rewrite (grid_from_at o x y Hx Hy). cbn [fst snd].
  destruct (grid_at pix y x) as [[|]|]; auto.
  destruct (Z.eqb_spec (PyDate.year
               (PyDate.fromordinal (o + (7 * Z.of_nat x + Z.of_nat y)))) Y); auto.
Qed.

Lemma cell_date_increasing :
  StronglySorted PyDate.lt (map (cell_date o) cells).
Proof.
  rewrite cells_steps, map_map.
  assert (E : forall n s, (s + n <= 371)%nat ->
                StronglySorted PyDate.lt
                  (map (fun k => cell_date o (cell_of_step k)) (seq s n))).
  { induction n as [|n IH]; intros s Hs; cbn [seq map]; constructor.
    - apply IH. lia.
    - apply Forall_forall. intros t (k & <- & Hk%in_seq)%in_map_iff.
      apply fromordinal_lt; unfold cell_of_step; cbn [fst snd].
      + lia.
      + pose proof (Nat.div_mod_eq s 7). pose proof (Nat.div_mod_eq k 7). lia.
      + pose proof (Nat.div_mod_eq k 7). lia. }
  apply E. lia.
Qed.

Lemma cell_noon_increasing :
  StronglySorted PyDateTime.lt (map (cell_noon o) cells).
Proof.
  pose proof cell_date_increasing as H. unfold cell_noon.
  rewrite <- (map_map (cell_date o) noon).
  induction H as [|d l _ IH Hd]; cbn; constructor; [ exact IH | ].
  rewrite Forall_forall in *. intros t (d' & <- & Hin)%in_map_iff.
  apply noon_lt, Hd, Hin.
Qed.

Lemma selected_increasing :
  StronglySorted PyDateTime.lt
                 (flat_map (cell_entries pix (grid_from o) Y) cells).
Proof.
  apply (flat_map_sorted _ _ (cell_noon o)); [ | apply cell_noon_increasing ].
  intros c Hc. destruct (cell_entries_cases c Hc) as [E|[E _]]; auto.
Qed.

End Loop.

(** The schedule, once the grid is defined: the cells' contributions in
    visiting order, which the final sort leaves as they are. *)
Lemma schedule_inv draw_text W Y cal :
  all_dates_for_year_grid Y = Ok cal ->
  exists pix,
    rasterize_text_to_53x7 draw_text W = Ok pix /\ has_shape 7 53 pix /\
    compute_commit_schedule draw_text W Y
    = Ok (flat_map (cell_entries pix cal Y) cells) /\
    StronglySorted PyDateTime.lt (flat_map (cell_entries pix cal Y) cells).
Proof.
  intros Hcal. destruct (rasterize_shape draw_text W) as (pix & Hpix & Hshape).
  exists pix. destruct (grid_inv _ _ Hcal) as (jan1 & start & _ & _ & Hv & Hhi & ->).
  pose proof (toordinal_range _ Hv) as [Hlo _].
  pose proof (selected_increasing pix _ Y Hlo Hhi) as Hinc.
  split; [ exact Hpix | ]. split; [ exact Hshape | ]. split; [ | exact Hinc ].
  unfold compute_commit_schedule. rewrite Hpix, Hcal. cbn [bind].
  rewrite schedule_loop by assumption. cbn [bind].
  rewrite list_sort_increasing; [ reflexivity | apply dt_ltb_asym | exact Hinc ].
Qed.

End ScheduleFacts.

(** * The calendar mapper *)

Import DateFacts GridFacts.

(** C2. Whenever the grid of year [Y] is defined, its cell [(0, 0)] is
    [sunday_on_or_before] of January 1st of [Y], and its cell [(x, y)], for
    [x < 53] and [y < 7], is that anchor plus [7x + y] days.  For
    [Y = 2021], January 1st is a Friday, the anchor is 2020-12-27, cell
    [(0, 0)] is 2020-12-27 and cell [(1, 0)] is 2021-01-03. *)
Theorem C2_grid_from_anchor (Y : Z) (g : list (list PyDate.date)) :
  all_dates_for_year_grid Y = Ok g ->
  exists jan1 anchor,
    PyDate.new Y 1 1 = Ok jan1 /\
    sunday_on_or_before jan1 = Ok anchor /\
    grid_at g 0 0 = Some anchor /\
    (forall x y, (x < 53)%nat -> (y < 7)%nat ->
       exists d, PyDate.add_days anchor (7 * Z.of_nat x + Z.of_nat y) = Ok d /\
                 grid_at g x y = Some d) /\
    (Y = 2021 ->
       PyDate.weekday jan1 = 4 /\
       anchor = PyDate.mkdate 2020 12 27 /\
       grid_at g 0 0 = Some (PyDate.mkdate 2020 12 27) /\
       grid_at g 1 0 = Some (PyDate.mkdate 2021 1 3)).
Proof.
  intros Hg. destruct (grid_inv _ _ Hg) as (jan1 & anchor & Hj & Hs & Hv & Hhi & ->).
  pose proof (PyDate_range := toordinal_range _ Hv).
  exists jan1, anchor. split; [ exact Hj | ]. split; [ exact Hs | ].
  assert (H00 : grid_at (grid_from (PyDate.toordinal anchor)) 0 0 = Some anchor).
  { rewrite grid_from_at by lia. cbn [Z.of_nat Z.mul Z.add].
    rewrite Z.add_0_r, fromordinal_toordinal by exact Hv. reflexivity. }
  split; [ exact H00 | ]. split.
  - intros x y Hx Hy. eexists. split.
    + apply add_days_Ok; [ exact Hv | lia ].
    + apply grid_from_at; assumption.
  - intros ->. apply new_Ok in Hj as [-> _].
    assert (Ea : anchor = PyDate.mkdate 2020 12 27).
    { vm_compute in Hs. injection Hs as <-. reflexivity. }
    subst anchor. split; [ reflexivity | ]. split; [ reflexivity | ].
    split; [ exact H00 | ]. rewrite grid_from_at by lia. reflexivity.
Qed.

Lemma C2_grid_from_anchor_witness :
  exists g,
    all_dates_for_year_grid 2021 = Ok g /\
    grid_at g 0 0 = Some (PyDate.mkdate 2020 12 27) /\
    grid_at g 1 0 = Some (PyDate.mkdate 2021 1 3).
Proof.
  eexists. split; [ vm_compute; reflexivity | ].
  match goal with
  | |- grid_at ?g _ _ = _ /\ _ =>
      destruct (C2_grid_from_anchor 2021 g) as (jan1 & anchor & _ & _ & _ & _ & H)
  end.
  - vm_compute. reflexivity.
  - destruct (H eq_refl) as (_ & _ & H0 & H1). split; assumption.
Defined.

(** C3, as the code has it.  For every date [d] from 0001-01-07 on,
    [sunday_on_or_before d] returns a Sunday [s] on or before [d]: [d] itself
    when [d] is a Sunday, and otherwise the latest Sunday strictly before
    [d] (no Sunday lies after [s] and on or before [d]). *)
Theorem C3_sunday_on_or_before (d : PyDate.date) :
  PyDate.valid d ->
  PyDate.le (PyDate.mkdate 1 1 7) d ->
  exists s,
    sunday_on_or_before d = Ok s /\
    PyDate.valid s /\
    PyDate.weekday s = 6 /\
    PyDate.le s d /\
    (PyDate.weekday d = 6 -> s = d) /\
    (PyDate.weekday d <> 6 -> PyDate.lt s d) /\
    (forall s', PyDate.valid s' -> PyDate.weekday s' = 6 -> PyDate.le s' d ->
                PyDate.le s' s).
Proof.
  intros Hd H7.
  assert (Hv7 : PyDate.valid (PyDate.mkdate 1 1 7)) by (repeat split; discriminate).
  apply (le_toordinal _ _ Hv7 Hd) in H7.
  change (PyDate.toordinal (PyDate.mkdate 1 1 7)) with 7 in H7.
  pose proof (toordinal_range d Hd) as Hr.
  set (o := PyDate.toordinal d) in *.
  assert (Ho : 1 <= o - o mod 7 <= PyDate.MAXORDINAL)
    by (Z.div_mod_to_equations; lia).
  exists (PyDate.fromordinal (o - o mod 7)).
  pose proof (fromordinal_valid _ Ho) as Hvs.
  pose proof (toordinal_fromordinal _ Ho) as Eos.
  split; [ apply sunday_Ok; assumption | ]. split; [ exact Hvs | ].
  split; [ unfold PyDate.weekday; rewrite Eos; Z.div_mod_to_equations; lia | ].
  split; [ apply le_toordinal; auto; rewrite Eos; fold o;
           Z.div_mod_to_equations; lia | ].
  split; [ | split ].
  - unfold PyDate.weekday. fold o. intros Hw.
    replace (o - o mod 7) with o by (Z.div_mod_to_equations; lia).
    apply fromordinal_toordinal, Hd.
  - unfold PyDate.weekday. fold o. intros Hw.
    apply lt_toordinal; auto. rewrite Eos. fold o. Z.div_mod_to_equations; lia.
  - intros s' Hv' Hw' Hle. apply le_toordinal in Hle; auto. fold o in Hle.
    apply le_toordinal; auto. rewrite Eos. unfold PyDate.weekday in Hw'.
    Z.div_mod_to_equations; lia.
Qed.

Lemma C3_sunday_on_or_before_witness :
  exists s, sunday_on_or_before (PyDate.mkdate 2021 1 1) = Ok s /\
            PyDate.weekday s = 6 /\ PyDate.lt s (PyDate.mkdate 2021 1 1).
Proof.
  destruct (C3_sunday_on_or_before (PyDate.mkdate 2021 1 1))
    as (s & Hs & _ & Hw & _ & _ & Hlt & _).
  - unfold PyDate.valid, PyDate.MINYEAR, PyDate.MAXYEAR. cbn. lia.
  - reflexivity.
  - exists s. split; [ exact Hs | ]. split; [ exact Hw | ].
    apply Hlt. vm_compute. discriminate.
Defined.

(** C3 fails as stated: 0001-01-01 is a Monday and no earlier date exists, so
    the call raises instead of returning a Sunday. *)
Lemma C3_counterexample :
  PyDate.valid (PyDate.mkdate 1 1 1) /\
  PyDate.weekday (PyDate.mkdate 1 1 1) = 0 /\
  sunday_on_or_before (PyDate.mkdate 1 1 1) = Raise OverflowError /\
  ~ exists s, sunday_on_or_before (PyDate.mkdate 1 1 1) = Ok s.
Proof.
  split; [ repeat split; discriminate | ]. split; [ reflexivity | ].
  split; [ reflexivity | ]. intros [s Hs]. discriminate Hs.
Qed.

(** C9. Whenever the grid of year [Y] is defined it has 53 columns of 7
    dates, 371 in all, and read column after column ([x] slowest, then [y])
    the dates are strictly increasing. *)
Theorem C9_grid_371_increasing (Y : Z) (g : list (list PyDate.date)) :
  all_dates_for_year_grid Y = Ok g ->
  List.length g = 53%nat /\
  Forall (fun week => List.length week = 7%nat) g /\
  List.length (List.concat g) = 371%nat /\
  StronglySorted PyDate.lt (List.concat g).
Proof.
  intros Hg. destruct (grid_inv _ _ Hg) as (jan1 & start & _ & _ & Hv & Hhi & ->).
  pose proof (toordinal_range _ Hv) as [Hlo _].
  destruct (grid_from_shape (PyDate.toordinal start)) as [H53 H7].
  split; [ exact H53 | ]. split; [ exact H7 | ].
  assert (E : List.concat (grid_from (PyDate.toordinal start))
              = map (cell_date (PyDate.toordinal start)) cells) by reflexivity.
  rewrite E. split.
  - rewrite length_map. reflexivity.
  - apply ScheduleFacts.cell_date_increasing; assumption.
Qed.

Lemma C9_grid_371_increasing_witness :
  exists g,
    all_dates_for_year_grid 2021 = Ok g /\
    List.length (List.concat g) = 371%nat /\ StronglySorted PyDate.lt (List.concat g).
Proof.
  eexists. split; [ vm_compute; reflexivity | ].
  match goal with
  | |- List.length (List.concat ?g) = _ /\ _ =>
      destruct (C9_grid_371_increasing 2021 g) as (_ & _ & Hn & Hs)
  end.
  - vm_compute. reflexivity.
  - split; assumption.
Defined.

(** C6, as the code has it.  [rasterize_text_to_53x7] returns for every
    string.  [sunday_on_or_before] returns for every date from 0001-01-07 on.
    [all_dates_for_year_grid] and [compute_commit_schedule] return exactly
    for the years 2 to 9998, and every cell of the grid is then a valid
    calendar date; for every other integer year both raise. *)
Theorem C6_total_on_domain (draw_text : PIL.Image -> string -> PIL.Image)
        (W : string) (Y : Z) :
  2 <= Y <= 9998 ->
  (exists pix, rasterize_text_to_53x7 draw_text W = Ok pix) /\
  (forall d, PyDate.valid d -> PyDate.le (PyDate.mkdate 1 1 7) d ->
             exists s, sunday_on_or_before d = Ok s /\ PyDate.valid s) /\
  (exists g, all_dates_for_year_grid Y = Ok g /\
             Forall (Forall PyDate.valid) g) /\
  (exists sched, compute_commit_schedule draw_text W Y = Ok sched) /\
  (forall Y' g, all_dates_for_year_grid Y' = Ok g -> 2 <= Y' <= 9998) /\
  (forall Y' sched, compute_commit_schedule draw_text W Y' = Ok sched ->
                    2 <= Y' <= 9998) /\
  (forall Y', ~ 2 <= Y' <= 9998 ->
              (exists e, all_dates_for_year_grid Y' = Raise e) /\
              (exists e, compute_commit_schedule draw_text W Y' = Raise e)).
Proof.
  intros HY.
  destruct (RasterFacts.rasterize_shape draw_text W) as (pix & Hpix & _).
  destruct (grid_defined Y HY) as [g Hg].
  assert (Hdom : forall Y' sched,
             compute_commit_schedule draw_text W Y' = Ok sched -> 2 <= Y' <= 9998).
  { intros Y' sched. unfold compute_commit_schedule.
    intros (pix' & _ & H)%bind_Ok_inv. apply bind_Ok_inv in H as (cal & Hcal & _).
    exact (grid_defined_inv _ _ Hcal). }
  split; [ eauto | ].
  split; [ | split; [ | split; [ | split; [ | split; [ exact Hdom | ] ] ] ] ];
    [ | | | | intros Y' HY'; split ].
  - intros d Hd H7.
    assert (Hv7 : PyDate.valid (PyDate.mkdate 1 1 7)) by (repeat split; discriminate).
    apply (le_toordinal _ _ Hv7 Hd) in H7.
    change (PyDate.toordinal (PyDate.mkdate 1 1 7)) with 7 in H7.
    pose proof (toordinal_range d Hd) as Hr.
    eexists. split; [ apply sunday_Ok; assumption | ].
    apply fromordinal_valid. Z.div_mod_to_equations; lia.
  - exists g. split; [ exact Hg | ].
    destruct (grid_inv _ _ Hg) as (jan1 & start & _ & _ & Hv & Hhi & ->).
    pose proof (toordinal_range _ Hv) as [Hlo _].
    unfold grid_from. apply Forall_map, Forall_forall. intros x Hx%in_seq.
    apply Forall_map, Forall_forall. intros y Hy%in_seq.
    apply fromordinal_valid. lia.
  - destruct (ScheduleFacts.schedule_inv draw_text W Y g Hg) as (? & _ & _ & H & _).
    eauto.
  - intros Y' g'. apply grid_defined_inv.
  - rewrite (grid_raises Y' HY'). eauto.
  - destruct (compute_commit_schedule draw_text W Y') as [sched|e] eqn:E;
      [ | eauto ].
    destruct (HY' (Hdom _ _ E)).
Qed.

Lemma C6_total_on_domain_witness :
  (exists g, all_dates_for_year_grid 2021 = Ok g) /\
  (exists sched, compute_commit_schedule checker_text "HELLO" 2021 = Ok sched).
Proof.
  destruct (C6_total_on_domain checker_text "HELLO" 2021)
    as (_ & _ & (g & Hg & _) & Hs & _).
  - lia.
  - split; [ exists g; exact Hg | exact Hs ].
Defined.

(** C6 fails as stated: the years 0, 1, 9999, 10000 and 2^31 are integers,
    and neither the grid nor the schedule exists for them. *)
Lemma C6_counterexample :
  all_dates_for_year_grid 0 = Raise ValueError /\
  all_dates_for_year_grid 1 = Raise OverflowError /\
  all_dates_for_year_grid 9999 = Raise OverflowError /\
  all_dates_for_year_grid 10000 = Raise ValueError /\
  all_dates_for_year_grid (2 ^ 31) = Raise OverflowError /\
  compute_commit_schedule blank_text "feel" 9999 = Raise OverflowError /\
  sunday_on_or_before (PyDate.mkdate 1 1 1) = Raise OverflowError.
Proof. repeat split; vm_compute; reflexivity. Qed.

(** * The rasterizer *)

(** C7. For every input string the rasterizer returns a grid of exactly 7
    rows of exactly 53 booleans each. *)
Theorem C7_rasterize_7x53 (draw_text : PIL.Image -> string -> PIL.Image)
        (text : string) :
  exists pix,
    rasterize_text_to_53x7 draw_text text = Ok pix /\
    List.length pix = 7%nat /\
    Forall (fun row => List.length row = 53%nat) pix.
Proof. apply RasterFacts.rasterize_shape. Qed.

(** C8. Every input string whose rendering leaves no pixel of the canvas
    lit, as the empty string and the blank string do, is rasterized to the
    all-false 7x53 grid, without any error. *)
Theorem C8_blank_rendering (draw_text : PIL.Image -> string -> PIL.Image)
        (text : string) :
  (forall x y,
     (x < PIL.xsize (draw_text (PIL.new 1200 200 0) text))%nat ->
     (y < PIL.ysize (draw_text (PIL.new 1200 200 0) text))%nat ->
     PIL.pixel (draw_text (PIL.new 1200 200 0) text) x y = 0) ->
  rasterize_text_to_53x7 draw_text text = Ok (repeat (repeat false 53) 7).
Proof.
  intros Hblank. unfold rasterize_text_to_53x7.
  rewrite RasterFacts.getbbox_blank by exact Hblank. reflexivity.
Qed.

Lemma C8_blank_rendering_witness :
  rasterize_text_to_53x7 blank_text "" = Ok (repeat (repeat false 53) 7) /\
  rasterize_text_to_53x7 blank_text "   " = Ok (repeat (repeat false 53) 7).
Proof.
  split; apply C8_blank_rendering; intros x y _ _; reflexivity.
Defined.

(** * The schedule builder *)

Import ScheduleFacts DateTimeFacts.

Lemma compute_inv draw_text W Y sched :
  compute_commit_schedule draw_text W Y = Ok sched ->
  exists pix cal selected,
    rasterize_text_to_53x7 draw_text W = Ok pix /\
    all_dates_for_year_grid Y = Ok cal /\
    sched = list_sort PyDateTime.ltb selected.
Proof.
  unfold compute_commit_schedule. intros (pix & Hpix & H)%bind_Ok_inv.
  apply bind_Ok_inv in H as (cal & Hcal & H).
  apply bind_Ok_inv in H as (selected & _ & H). injection H as <-.
  exists pix, cal, selected. auto.
Qed.

(** The schedule of a defined grid, with the rasterized grid that made it. *)
Lemma compute_cells draw_text W Y sched :
  compute_commit_schedule draw_text W Y = Ok sched ->
  exists pix cal,
    rasterize_text_to_53x7 draw_text W = Ok pix /\
    all_dates_for_year_grid Y = Ok cal /\
    sched = flat_map (cell_entries pix cal Y) cells /\
    StronglySorted PyDateTime.lt sched.
Proof.
  intros H. destruct (compute_inv _ _ _ _ H) as (pix & cal & _ & Hpix & Hcal & _).
  destruct (schedule_inv draw_text W Y cal Hcal) as (pix' & Hpix' & _ & Hs & Hinc).
  rewrite H in Hs. injection Hs as ->. eauto 6.
Qed.

Lemma selected_cells {T : Type} (f : nat * nat -> list T)
      (P : nat * nat -> T -> Prop) l :
  (forall c, In c l -> f c = [] \/ exists t, f c = [t] /\ P c t) ->
  Forall2 P (filter (fun c => match f c with [] => false | _ :: _ => true end) l)
          (flat_map f l).
Proof.
  induction l as [|c l IH]; cbn; intros H; [ constructor | ].
  destruct (H c (or_introl eq_refl)) as [-> | (t & -> & Ht)]; cbn; auto.
Qed.

Lemma cell_selected_true pix cal Y x y :
  cell_selected pix cal Y (x, y) = true <->
  grid_at pix y x = Some true /\
  exists d, grid_at cal x y = Some d /\ PyDate.year d = Y.
Proof.
  unfold cell_selected, cell_entries.
  destruct (grid_at pix y x) as [[|]|].
  - destruct (grid_at cal x y) as [d|].
    + destruct (Z.eqb_spec (PyDate.year d) Y) as [E|E].
      * split; [ eauto | reflexivity ].
      * split; [ discriminate | ]. intros (_ & d' & [= <-] & E'). contradiction.
    + split; [ discriminate | ]. intros (_ & d' & Hd & _). discriminate Hd.
  - split; [ discriminate | ]. intros (Hp & _). discriminate Hp.
  - split; [ discriminate | ]. intros (Hp & _). discriminate Hp.
Qed.

(** C1. Whenever the grid [cal] of year [Y] is defined, the schedule of
    word [W] exists and its entries correspond one to one, in order, to the
    cells [(x, y)], [x < 53] and [y < 7], whose pixel [pix[y][x]] is lit and
    whose date [cal[x][y]] lies in year [Y]: each such cell is listed once in
    [chosen], each entry is 12:00:00 on the date of its cell, and there is no
    other entry. *)
Theorem C1_one_entry_per_cell (draw_text : PIL.Image -> string -> PIL.Image)
        (W : string) (Y : Z) (cal : list (list PyDate.date)) :
  all_dates_for_year_grid Y = Ok cal ->
  exists pix sched chosen,
    rasterize_text_to_53x7 draw_text W = Ok pix /\
    compute_commit_schedule draw_text W Y = Ok sched /\
    NoDup chosen /\
    (forall x y,
       In (x, y) chosen <->
       (x < 53)%nat /\ (y < 7)%nat /\ grid_at pix y x = Some true /\
       exists d, grid_at cal x y = Some d /\ PyDate.year d = Y) /\
    Forall2 (fun c t =>
               exists d, grid_at cal (fst c) (snd c) = Some d /\
                         t = PyDateTime.mkdatetime
                               (PyDate.year d) (PyDate.month d) (PyDate.day d)
                               12 0 0 0)
            chosen sched.
Proof.
  intros Hcal.
  destruct (schedule_inv draw_text W Y cal Hcal) as (pix & Hpix & _ & Hs & _).
  exists pix, (flat_map (cell_entries pix cal Y) cells),
    (filter (cell_selected pix cal Y) cells).
  split; [ exact Hpix | ]. split; [ exact Hs | ].
  split; [ apply NoDup_filter, NoDup_cells | ]. split.
  - intros x y. rewrite filter_In, in_cells, cell_selected_true. tauto.
  - apply selected_cells. intros [x y] _. unfold cell_entries. cbn [fst snd].
    destruct (grid_at pix y x) as [[|]|]; auto.
    destruct (grid_at cal x y) as [d|] eqn:Ed; auto.
    destruct (PyDate.year d =? Y); auto.
    right. exists (noon d). split; [ reflexivity | ]. exists d. auto.
Qed.

Lemma C1_one_entry_per_cell_witness :
  exists cal pix sched,
    all_dates_for_year_grid 2021 = Ok cal /\
    rasterize_text_to_53x7 checker_text "HELLO" = Ok pix /\
    compute_commit_schedule checker_text "HELLO" 2021 = Ok sched.
Proof.
  assert (H : { cal | all_dates_for_year_grid 2021 = Ok cal })
    by (eexists; vm_compute; reflexivity).
  destruct H as [cal Hcal].
  destruct (C1_one_entry_per_cell checker_text "HELLO" 2021 cal Hcal)
    as (pix & sched & _ & Hpix & Hs & _).
  exists cal, pix, sched. auto.
Defined.

(** C4. Every entry of the schedule of word [W] and year [Y] has a
    timestamp in year [Y]: a cell whose date lies in another year contributes
    nothing, so noon of such a date is not in the schedule. *)
Theorem C4_entries_in_year (draw_text : PIL.Image -> string -> PIL.Image)
        (W : string) (Y : Z) (sched : list PyDateTime.datetime) :
  compute_commit_schedule draw_text W Y = Ok sched ->
  Forall (fun t => PyDateTime.year t = Y) sched /\
  (forall pix cal x y d,
     rasterize_text_to_53x7 draw_text W = Ok pix ->
     all_dates_for_year_grid Y = Ok cal ->
     grid_at cal x y = Some d -> PyDate.year d <> Y ->
     cell_entries pix cal Y (x, y) = [] /\ ~ In (noon d) sched).
Proof.
  intros H. destruct (compute_cells _ _ _ _ H) as (pix & cal & Hpix & Hcal & -> & _).
  assert (HY : Forall (fun t => PyDateTime.year t = Y)
                      (flat_map (cell_entries pix cal Y) cells)).
  { apply Forall_forall. intros t ([x y] & _ & Ht)%in_flat_map.
    unfold cell_entries in Ht.
    destruct (grid_at pix y x) as [[|]|]; try contradiction.
    destruct (grid_at cal x y) as [d|]; try contradiction.
    destruct (Z.eqb_spec (PyDate.year d) Y) as [E|E]; [ | contradiction ].
    destruct Ht as [<-|[]]. exact E. }
  split; [ exact HY | ].
  intros pix' cal' x y d Hpix' Hcal' Hd Hne. split.
  - unfold cell_entries. rewrite Hd.
    destruct (grid_at pix' y x) as [[|]|]; auto.
    destruct (Z.eqb_spec (PyDate.year d) Y); [ contradiction | reflexivity ].
  - intros Hin. rewrite Forall_forall in HY. apply HY in Hin. exact (Hne Hin).
Qed.

Lemma C4_entries_in_year_witness :
  exists sched,
    compute_commit_schedule checker_text "HELLO" 2021 = Ok sched /\
    Forall (fun t => PyDateTime.year t = 2021) sched /\
    ~ In (noon (PyDate.mkdate 2020 12 27)) sched.
Proof.
  eexists. split; [ vm_compute; reflexivity | ].
  match goal with
  | |- Forall _ ?s /\ _ =>
      destruct (C4_entries_in_year checker_text "HELLO" 2021 s) as [HY Hout]
  end.
  - vm_compute. reflexivity.
  - split; [ exact HY | ].
    eapply (Hout _ _ 0%nat 0%nat (PyDate.mkdate 2020 12 27)).
    + vm_compute. reflexivity.
    + vm_compute. reflexivity.
    + reflexivity.
    + discriminate.
Defined.

(** C5. The schedule of every word and year is sorted non-decreasing by
    timestamp. *)
Theorem C5_schedule_sorted (draw_text : PIL.Image -> string -> PIL.Image)
        (W : string) (Y : Z) (sched : list PyDateTime.datetime) :
  compute_commit_schedule draw_text W Y = Ok sched ->
  StronglySorted PyDateTime.le sched.
Proof.
  intros H. destruct (compute_inv _ _ _ _ H) as (_ & _ & selected & _ & _ & ->).
  apply list_sort_sorted; [ apply dt_ltb_asym | apply dt_le_trans ].
Qed.

Lemma C5_schedule_sorted_witness :
  exists sched,
    compute_commit_schedule checker_text "HELLO" 2021 = Ok sched /\
    StronglySorted PyDateTime.le sched.
Proof.
  eexists. split; [ vm_compute; reflexivity | ].
  apply (C5_schedule_sorted checker_text "HELLO" 2021). vm_compute. reflexivity.
Defined.

(** C10. No two entries of a schedule share a timestamp: distinct cells of a
    defined grid hold distinct dates, and the schedule is strictly
    increasing. *)
Theorem C10_no_duplicate_timestamps
        (draw_text : PIL.Image -> string -> PIL.Image)
        (W : string) (Y : Z) (sched : list PyDateTime.datetime) :
  compute_commit_schedule draw_text W Y = Ok sched ->
  NoDup sched /\
  StronglySorted PyDateTime.lt sched /\
  (forall cal x y x' y' d,
     all_dates_for_year_grid Y = Ok cal ->
     (x < 53)%nat -> (y < 7)%nat -> (x' < 53)%nat -> (y' < 7)%nat ->
     grid_at cal x y = Some d -> grid_at cal x' y' = Some d ->
     x = x' /\ y = y').
Proof.
  intros H. destruct (compute_cells _ _ _ _ H) as (pix & cal & _ & Hcal & _ & Hinc).
  split; [ | split; [ exact Hinc | ] ].
  - clear H. induction Hinc as [|t l _ IH Ht]; constructor; [ | exact IH ].
    intros Hin. rewrite Forall_forall in Ht. exact (dt_lt_irrefl t (Ht t Hin)).
  - intros cal' x y x' y' d Hcal' Hx Hy Hx' Hy'.
    destruct (grid_inv _ _ Hcal') as (jan1 & start & _ & _ & Hv & Hhi & ->).
    pose proof (toordinal_range _ Hv) as [Hlo _].
    rewrite !grid_from_at by assumption. intros Hd Hd'.
    set (o := PyDate.toordinal start) in *.
    assert (E : PyDate.toordinal
                  (PyDate.fromordinal (o + (7 * Z.of_nat x + Z.of_nat y)))
                = PyDate.toordinal
                    (PyDate.fromordinal (o + (7 * Z.of_nat x' + Z.of_nat y'))))
      by congruence.
    rewrite !toordinal_fromordinal in E by lia. lia.
Qed.

Lemma C10_no_duplicate_timestamps_witness :
  exists sched,
    compute_commit_schedule checker_text "HELLO" 2021 = Ok sched /\
    NoDup sched /\ StronglySorted PyDateTime.lt sched.
Proof.
  eexists. split; [ vm_compute; reflexivity | ].
  match goal with
  | |- NoDup ?s /\ _ =>
      destruct (C10_no_duplicate_timestamps checker_text "HELLO" 2021 s)
        as (Hnd & Hs & _)
  end.
  - vm_compute. reflexivity.
  - split; assumption.
Defined.

(** * More of the calendar *)

Module CoverageFacts.
Import PyDate CalendarFacts DateFacts GridFacts.

(** The ordinals of the days of a year. *)
Lemma year_ordinals d :
  valid d ->
  days_before_year (year d) < toordinal d
  <= days_before_year (year d) + days_in_year (year d).
Proof.
  intros (_ & Hm & Hd). unfold toordinal, ymd2ord.
  pose proof (day_of_year_bound _ _ _ Hm Hd). lia.
Qed.

Lemma year_of_ordinal d Y :
  valid d ->
  days_before_year Y < toordinal d <= days_before_year Y + days_in_year Y ->
  year d = Y.
Proof.
  intros Hv H. pose proof (year_ordinals d Hv) as Hd.
  destruct (Z.lt_total (year d) Y) as [Hlt|[E|Hlt]]; [ | exact E | ];
    apply dby_lt in Hlt; lia.
Qed.

(** The anchor of a defined grid, as an ordinal. *)
Lemma grid_anchor Y g :
  all_dates_for_year_grid Y = Ok g ->
  g = grid_from (anchor_ordinal Y) /\
  1 <= anchor_ordinal Y /\ anchor_ordinal Y + 370 <= MAXORDINAL /\
  anchor_ordinal Y mod 7 = 0 /\
  days_before_year Y - 5 <= anchor_ordinal Y <= days_before_year Y + 1.
Proof.
  intros Hg. destruct (grid_inv _ _ Hg) as (jan1 & start & Hj & Hs & Hv & Hhi & ->).
  apply new_Ok in Hj as [-> Hvj]. apply sunday_inv in Hs as [H7 Es].
  rewrite jan1_ordinal in *. fold (anchor_ordinal Y) in Es.
  pose proof (toordinal_range _ Hv) as [Hlo _].
  assert (Ho : 1 <= anchor_ordinal Y <= MAXORDINAL).
  { pose proof (toordinal_range _ Hvj) as Hr. rewrite jan1_ordinal in Hr.
    unfold anchor_ordinal. Z.div_mod_to_equations; lia. }
  subst start. rewrite toordinal_fromordinal in * by exact Ho.
  split; [ reflexivity | ]. split; [ lia | ]. split; [ lia | ].
  unfold anchor_ordinal. Z.div_mod_to_equations; lia.
Qed.

Lemma in_grid_from o d :
  1 <= o -> o + 370 <= MAXORDINAL -> valid d ->
  (In d (List.concat (grid_from o)) <-> o <= toordinal d <= o + 370).
Proof.
  intros Hlo Hhi Hv.
  assert (E : List.concat (grid_from o) = map (cell_date o) cells) by reflexivity.
  rewrite E, ScheduleFacts.cells_steps, map_map. rewrite in_map_iff. split.
  - intros (k & <- & Hk%in_seq). unfold cell_date, cell_of_step. cbn [fst snd].
    pose proof (Nat.div_mod_eq k 7).
    rewrite toordinal_fromordinal by lia. lia.
  - intros Hr. exists (Z.to_nat (toordinal d - o)). split; [ | apply in_seq; lia ].
    unfold cell_date, cell_of_step. cbn [fst snd].
    pose proof (Nat.div_mod_eq (Z.to_nat (toordinal d - o)) 7).
    replace (o + _) with (toordinal d) by lia.
    apply fromordinal_toordinal, Hv.
Qed.

Lemma last_day_of_leap_year d :
  valid d ->
  (toordinal d = days_before_year (year d) + 366 <->
   is_leap (year d) = true /\ month d = 12 /\ day d = 31).
Proof.
  intros (_ & Hm & Hd). unfold toordinal, ymd2ord.
  unfold days_in_month, days_before_month in *.
  destruct d as [y m dd]. cbn [year month day] in *.
  month_cases m; destruct (is_leap y); cbn -[Z.add] in *;
    split; try lia; intros (? & ? & ?); try discriminate; lia.
Qed.

Lemma grid_at_inv Y g x y d :
  all_dates_for_year_grid Y = Ok g ->
  grid_at g x y = Some d ->
  (x < 53)%nat /\ (y < 7)%nat /\
  d = fromordinal (anchor_ordinal Y + (7 * Z.of_nat x + Z.of_nat y)) /\
  valid d.
Proof.
  intros Hg Hd. destruct (grid_anchor _ _ Hg) as (-> & Hlo & Hhi & _).
  set (o := anchor_ordinal Y) in *.
  assert (Hx : (x < 53)%nat).
  { destruct (grid_from_shape o) as [H53 _]. unfold grid_at in Hd.
    destruct (nth_error (grid_from o) x) eqn:E; [ | discriminate ].
    rewrite <- H53. apply nth_error_Some. congruence. }
  assert (Hy : (y < 7)%nat).
  { destruct (grid_from_shape o) as [_ Hrows]. unfold grid_at in Hd.
    destruct (nth_error (grid_from o) x) as [w|] eqn:E; [ | discriminate ].
    rewrite Forall_forall in Hrows. rewrite <- (Hrows w (nth_error_In _ _ E)).
    apply nth_error_Some. congruence. }
  rewrite grid_from_at in Hd by assumption.
  assert (Ed : d = fromordinal (o + (7 * Z.of_nat x + Z.of_nat y))) by congruence.
  split; [ exact Hx | ]. split; [ exact Hy | ]. split; [ exact Ed | ].
  rewrite Ed. apply fromordinal_valid. lia.
Qed.

(** An increasing list of integers drawn from [n] consecutive ones. *)
Lemma increasing_length (l : list Z) :
  StronglySorted Z.lt l ->
  forall a n, 0 <= n -> Forall (fun z => a < z <= a + n) l ->
              Z.of_nat (List.length l) <= n.
Proof.
  induction 1 as [|z l _ IH Hz]; intros a n Hn Hl; cbn [List.length]; [ lia | ].
  inversion Hl as [|? ? Hza Hl']; subst.
  assert (Z.of_nat (List.length l) <= a + n - z).
  { apply (IH z); [ lia | ]. rewrite Forall_forall in *. intros w Hw.
    specialize (Hz w Hw). specialize (Hl' w Hw). lia. }
  lia.
Qed.

End CoverageFacts.

Import DateFacts GridFacts CalendarFacts CoverageFacts.

(** X1. [sunday_on_or_before] is idempotent: applied to a date it returned,
    it returns that date again. *)
Theorem X1_sunday_idempotent (d s : PyDate.date) :
  PyDate.valid d ->
  sunday_on_or_before d = Ok s ->
  sunday_on_or_before s = Ok s.
Proof.
  intros Hd Hs. apply sunday_inv in Hs as [H7 ->].
  pose proof (toordinal_range d Hd) as Hr.
  set (o := PyDate.toordinal d) in *.
  assert (Ho : 1 <= o - o mod 7 <= PyDate.MAXORDINAL)
    by (Z.div_mod_to_equations; lia).
  rewrite sunday_Ok.
  - rewrite toordinal_fromordinal by exact Ho.
    replace ((o - o mod 7) mod 7) with 0 by (Z.div_mod_to_equations; lia).
    rewrite Z.sub_0_r. reflexivity.
  - apply fromordinal_valid, Ho.
  - rewrite toordinal_fromordinal by exact Ho. Z.div_mod_to_equations; lia.
Qed.

Lemma X1_sunday_idempotent_witness :
  sunday_on_or_before (PyDate.mkdate 2020 12 27) = Ok (PyDate.mkdate 2020 12 27).
Proof.
  apply (X1_sunday_idempotent (PyDate.mkdate 2021 1 1)).
  - unfold PyDate.valid, PyDate.MINYEAR, PyDate.MAXYEAR. cbn. lia.
  - vm_compute. reflexivity.
Defined.

(** X2. In a defined grid row [y] always falls on the same weekday: row 0 on
    Sunday, row 1 on Monday, ..., row 6 on Saturday ([weekday] counts from
    Monday = 0). *)
Theorem X2_rows_are_weekdays (Y : Z) (g : list (list PyDate.date))
        (x y : nat) (d : PyDate.date) :
  all_dates_for_year_grid Y = Ok g ->
  grid_at g x y = Some d ->
  (x < 53)%nat /\ (y < 7)%nat /\ PyDate.weekday d = (Z.of_nat y + 6) mod 7.
Proof.
  intros Hg Hd. destruct (grid_at_inv _ _ _ _ _ Hg Hd) as (Hx & Hy & -> & _).
  destruct (grid_anchor _ _ Hg) as (_ & Hlo & Hhi & Hmod & _).
  split; [ exact Hx | ]. split; [ exact Hy | ].
  unfold PyDate.weekday. rewrite toordinal_fromordinal by lia.
  Z.div_mod_to_equations; lia.
Qed.

Lemma X2_rows_are_weekdays_witness :
  PyDate.weekday (PyDate.mkdate 2021 1 3) = 6.
Proof.
  assert (H : { g | all_dates_for_year_grid 2021 = Ok g })
    by (eexists; vm_compute; reflexivity).
  destruct H as [g Hg].
  destruct (X2_rows_are_weekdays 2021 g 1 0 (PyDate.mkdate 2021 1 3) Hg)
    as (_ & _ & H).
  - vm_compute in Hg. injection Hg as <-. reflexivity.
  - exact H.
Defined.

(** X3. A defined grid of year [Y] holds every day of [Y], with one
    exception: when [Y] is a leap year that starts on a Saturday, December
    31st falls in a 54th week and is the only day of [Y] left out. *)
Theorem X3_grid_covers_year (Y : Z) (g : list (list PyDate.date))
        (d : PyDate.date) :
  all_dates_for_year_grid Y = Ok g ->
  PyDate.valid d -> PyDate.year d = Y ->
  (In d (List.concat g) <->
   ~ (PyDate.is_leap Y = true /\ PyDate.weekday (PyDate.mkdate Y 1 1) = 5 /\
      PyDate.month d = 12 /\ PyDate.day d = 31)).
Proof.
  intros Hg Hv HY. destruct (grid_anchor _ _ Hg) as (-> & Hlo & Hhi & _).
  rewrite in_grid_from by assumption. unfold anchor_ordinal.
  pose proof (year_ordinals d Hv) as Ho. rewrite HY in Ho.
  pose proof (last_day_of_leap_year d Hv) as Hlast. rewrite HY in Hlast.
  unfold PyDate.weekday. rewrite jan1_ordinal.
  unfold days_in_year in Ho. destruct (PyDate.is_leap Y).
  - split.
    + intros Hr (_ & Hw & Hm & Hd31).
      assert (PyDate.toordinal d = PyDate.days_before_year Y + 366)
        by (apply Hlast; auto).
      Z.div_mod_to_equations; lia.
    + intros Hn.
      assert (Hc : PyDate.toordinal d <> PyDate.days_before_year Y + 366
                   \/ (PyDate.days_before_year Y + 1 + 6) mod 7 <> 5).
      { destruct (Z.eq_dec (PyDate.toordinal d) (PyDate.days_before_year Y + 366))
          as [E|E]; [ right | left; exact E ].
        intros Hw. apply Hn. apply Hlast in E. tauto. }
      Z.div_mod_to_equations; lia.
  - split; [ intros _ (F & _); discriminate F | intros _ ].
    Z.div_mod_to_equations; lia.
Qed.

Lemma X3_grid_covers_year_witness :
  exists g,
    all_dates_for_year_grid 2000 = Ok g /\
    In (PyDate.mkdate 2000 12 30) (List.concat g) /\
    ~ In (PyDate.mkdate 2000 12 31) (List.concat g).
Proof.
  assert (H : { g | all_dates_for_year_grid 2000 = Ok g })
    by (eexists; vm_compute; reflexivity).
  destruct H as [g Hg]. exists g. split; [ exact Hg | ].
  assert (Hv : forall dd, 1 <= dd <= 31 -> PyDate.valid (PyDate.mkdate 2000 12 dd)).
  { intros dd Hdd. unfold PyDate.valid, PyDate.MINYEAR, PyDate.MAXYEAR.
    cbn. lia. }
  split.
  - apply (X3_grid_covers_year 2000 g _ Hg (Hv 30 ltac:(lia)) eq_refl).
    intros (_ & _ & _ & F). discriminate F.
  - intros Hin.
    apply (X3_grid_covers_year 2000 g _ Hg (Hv 31 ltac:(lia)) eq_refl) in Hin.
    apply Hin. repeat split.
Defined.

(** X4. In a defined grid January 1st of [Y] lies in column 0, in the row of
    its weekday, and the cells above it in column 0 belong to year [Y - 1]. *)
Theorem X4_first_column (Y : Z) (g : list (list PyDate.date)) :
  all_dates_for_year_grid Y = Ok g ->
  let r := (PyDate.weekday (PyDate.mkdate Y 1 1) + 1) mod 7 in
  grid_at g 0 (Z.to_nat r) = Some (PyDate.mkdate Y 1 1) /\
  (forall y d, (Z.of_nat y < r) -> grid_at g 0 y = Some d ->
               PyDate.year d = Y - 1).
Proof.
  intros Hg r. destruct (grid_anchor _ _ Hg) as (Eg & Hlo & Hhi & _ & Hj).
  destruct (grid_inv _ _ Hg) as (jan1 & _ & Hj1 & _).
  apply new_Ok in Hj1 as [-> Hvj]. clear Hg. subst g.
  assert (Er : anchor_ordinal Y + r = PyDate.days_before_year Y + 1).
  { subst r. rewrite sunday_offset, jan1_ordinal. unfold anchor_ordinal. lia. }
  assert (Hr : 0 <= r < 7) by (apply Z.mod_pos_bound; lia).
  split.
  - rewrite grid_from_at by lia.
    replace (anchor_ordinal Y + (7 * Z.of_nat 0 + Z.of_nat (Z.to_nat r)))
      with (PyDate.days_before_year Y + 1) by lia.
    f_equal. rewrite <- (jan1_ordinal Y). apply fromordinal_toordinal. exact Hvj.
  - intros y d Hy Hd. rewrite grid_from_at in Hd by lia.
    assert (Ed : d = PyDate.fromordinal
                       (anchor_ordinal Y + (7 * Z.of_nat 0 + Z.of_nat y)))
      by congruence.
    rewrite Ed.
    assert (Ho : 1 <= anchor_ordinal Y + (7 * Z.of_nat 0 + Z.of_nat y)
                 <= PyDate.MAXORDINAL) by lia.
    apply year_of_ordinal; [ apply fromordinal_valid, Ho | ].
    rewrite toordinal_fromordinal by exact Ho.
    pose proof (dby_succ (Y - 1)) as Hs. replace (Y - 1 + 1) with Y in Hs by lia.
    unfold days_in_year in *. destruct (PyDate.is_leap (Y - 1)); lia.
Qed.

Lemma X4_first_column_witness :
  exists g,
    all_dates_for_year_grid 2021 = Ok g /\
    grid_at g 0 5 = Some (PyDate.mkdate 2021 1 1) /\
    grid_at g 0 4 = Some (PyDate.mkdate 2020 12 31).
Proof.
  assert (H : { g | all_dates_for_year_grid 2021 = Ok g })
    by (eexists; vm_compute; reflexivity).
  destruct H as [g Hg]. exists g. split; [ exact Hg | ].
  destruct (X4_first_column 2021 g Hg) as [H1 _].
  split; [ exact H1 | ]. vm_compute in Hg. injection Hg as <-. reflexivity.
Defined.

(** * More of the schedule *)

Import DateFacts GridFacts CalendarFacts CoverageFacts ScheduleFacts DateTimeFacts.

(** Every entry of a schedule is noon of a day of the year. *)
Lemma schedule_entries draw_text W Y sched :
  compute_commit_schedule draw_text W Y = Ok sched ->
  Forall (fun t => exists d, PyDate.valid d /\ PyDate.year d = Y /\ t = noon d)
         sched.
Proof.
  intros H. destruct (compute_cells _ _ _ _ H) as (pix & cal & _ & Hcal & -> & _).
  apply Forall_forall. intros t ([x y] & _ & Ht)%in_flat_map.
  unfold cell_entries in Ht.
  destruct (grid_at pix y x) as [[|]|]; try contradiction.
  destruct (grid_at cal x y) as [d|] eqn:Ed; try contradiction.
  destruct (Z.eqb_spec (PyDate.year d) Y) as [E|E]; [ | contradiction ].
  destruct Ht as [<-|[]]. exists d.
  destruct (grid_at_inv _ _ _ _ _ Hcal Ed) as (_ & _ & _ & Hv). auto.
Qed.

(** X5. A word whose rendering leaves the canvas unlit has an empty
    schedule in every year from 2 to 9998. *)
Theorem X5_blank_word_empty_schedule
        (draw_text : PIL.Image -> string -> PIL.Image) (W : string) (Y : Z) :
  (forall x y,
     (x < PIL.xsize (draw_text (PIL.new 1200 200 0) W))%nat ->
     (y < PIL.ysize (draw_text (PIL.new 1200 200 0) W))%nat ->
     PIL.pixel (draw_text (PIL.new 1200 200 0) W) x y = 0) ->
  2 <= Y <= 9998 ->
  compute_commit_schedule draw_text W Y = Ok [].
Proof.
  intros Hblank HY. destruct (grid_defined Y HY) as [cal Hcal].
  destruct (schedule_inv draw_text W Y cal Hcal) as (pix & Hpix & _ & Hs & _).
  rewrite Hs. f_equal.
  assert (Epix : pix = repeat (repeat false 53) 7).
  { unfold rasterize_text_to_53x7 in Hpix.
    rewrite RasterFacts.getbbox_blank in Hpix by exact Hblank. congruence. }
  subst pix. clear Hs Hpix.
  induction cells as [|[x y] l IH]; [ reflexivity | ].
  cbn [flat_map]. rewrite IH, app_nil_r. unfold cell_entries.
  assert (E : grid_at (repeat (repeat false 53) 7) y x = Some false
              \/ grid_at (repeat (repeat false 53) 7) y x = None).
  { unfold grid_at. destruct (nth_error (repeat (repeat false 53) 7) y) as [r|] eqn:Er;
      [ | auto ].
    apply nth_error_In, repeat_spec in Er. subst r.
    destruct (nth_error (repeat false 53) x) as [b|] eqn:Eb; [ | auto ].
    apply nth_error_In, repeat_spec in Eb. subst b. auto. }
  destruct E as [-> | ->]; reflexivity.
Qed.

Lemma X5_blank_word_empty_schedule_witness :
  compute_commit_schedule blank_text "" 2021 = Ok [].
Proof.
  apply X5_blank_word_empty_schedule.
  - intros x y _ _. reflexivity.
  - lia.
Defined.

(** X6. A schedule never has more entries than its year has days: at most
    366, and at most 365 in a common year. *)
Theorem X6_schedule_length (draw_text : PIL.Image -> string -> PIL.Image)
        (W : string) (Y : Z) (sched : list PyDateTime.datetime) :
  compute_commit_schedule draw_text W Y = Ok sched ->
  Z.of_nat (List.length sched) <= days_in_year Y /\
  (List.length sched <= 366)%nat.
Proof.
  intros H. pose proof (schedule_entries _ _ _ _ H) as He.
  destruct (compute_cells _ _ _ _ H) as (_ & _ & _ & _ & _ & Hinc).
  assert (Hlen : Z.of_nat (List.length sched) <= days_in_year Y).
  { set (ord := fun t => PyDate.ymd2ord (PyDateTime.year t) (PyDateTime.month t)
                                        (PyDateTime.day t)).
    rewrite <- (length_map ord).
    apply (increasing_length _) with (a := PyDate.days_before_year Y).
    - clear H. induction Hinc as [|t l _ IH Ht]; cbn; constructor.
      + apply IH. inversion He; assumption.
      + inversion He as [|? ? (d & Hv & _ & ->) Hl]; subst.
        rewrite Forall_forall in *. intros z (t' & <- & Hin)%in_map_iff.
        destruct (Hl t' Hin) as (d' & Hv' & _ & ->).
        specialize (Ht _ Hin). unfold PyDateTime.lt in Ht. rewrite noon_ltb in Ht.
        apply (toordinal_lt d d' Hv Hv' Ht).
    - unfold days_in_year. destruct (PyDate.is_leap Y); lia.
    - rewrite Forall_forall in *. intros z (t & <- & Hin)%in_map_iff.
      destruct (He t Hin) as (d & Hv & <- & ->).
      apply (year_ordinals d Hv). }
  split; [ exact Hlen | ]. unfold days_in_year in Hlen.
  destruct (PyDate.is_leap Y); lia.
Qed.

Lemma X6_schedule_length_witness :
  exists sched,
    compute_commit_schedule checker_text "HELLO" 2021 = Ok sched /\
    (List.length sched <= 366)%nat.
Proof.
  eexists. split; [ vm_compute; reflexivity | ].
  match goal with
  | |- (List.length ?s <= _)%nat =>
      destruct (X6_schedule_length checker_text "HELLO" 2021 s) as [_ H]
  end.
  - vm_compute. reflexivity.
  - exact H.
Defined.

(** * The command line program *)

(** ** Text and environment *)

Lemma cut_at_first sep a b :
  has_char sep a = false -> cut_at sep (a ++ String sep b) = (a, Some b).
Proof.
  induction a as [|c a IH]; cbn.
  - intros _. rewrite Ascii.eqb_refl. reflexivity.
  - intros [Hc Ha]%orb_false_elim. rewrite Hc, IH by exact Ha. reflexivity.
Qed.

Lemma cut_at_none sep s : has_char sep s = false -> cut_at sep s = (s, None).
Proof.
  induction s as [|c s IH]; cbn; [ reflexivity | ].
  intros [Hc Hs]%orb_false_elim. rewrite Hc, IH by exact Hs. reflexivity.
Qed.

Lemma env_get_set_same env k v : env_get (env_set env k v) k = Some v.
Proof.
  induction env as [|[k' v'] env IH]; cbn.
  - rewrite String.eqb_refl. reflexivity.
  - destruct (String.eqb k' k) eqn:E; cbn; rewrite E; [ reflexivity | exact IH ].
Qed.

Lemma env_get_set_other env k v k' :
  k <> k' -> env_get (env_set env k v) k' = env_get env k'.
Proof.
  intros Hk. induction env as [|[k0 v0] env IH]; cbn.
  - destruct (String.eqb_spec k k'); [ contradiction | reflexivity ].
  - destruct (String.eqb_spec k0 k) as [->|]; cbn.
    + destruct (String.eqb_spec k k'); [ contradiction | reflexivity ].
    + rewrite IH. reflexivity.
Qed.

Section FailFast.

Variable draw_text : PIL.Image -> string -> PIL.Image.
Variable int_of_str : string -> option Z.
Variable strftime : PyDateTime.datetime -> string -> string.
Variable subprocess_run :
  list event -> list string -> option environ -> option CompletedProcess.
Variable os_environ : environ.
Variable now_year : Z.

Local Notation "'RUN'" := (run subprocess_run).
Local Notation "'HEALTHY'" := (healthy subprocess_run).
Local Notation "'FAIL_FAST'" := (fail_fast subprocess_run).

Lemma ff_ret {A : Type} (a : A) tr : HEALTHY tr -> FAIL_FAST (io_ret a tr).
Proof. intros H. exact H. Qed.

Lemma ff_bind {A B : Type} (m : io A) (k : A -> io B) tr :
  FAIL_FAST (m tr) ->
  (forall a tr', HEALTHY tr' -> FAIL_FAST (k a tr')) ->
  FAIL_FAST (io_bind m k tr).
Proof.
  unfold io_bind. destruct (m tr) as [[a|f] tr']; cbn; intros Hm Hk.
  - apply Hk, Hm.
  - exact Hm.
Qed.

Lemma ff_print line tr : HEALTHY tr -> FAIL_FAST (emit (Stdout line) tr).
Proof. intros H. cbn. constructor. exact H. Qed.

Lemma ff_lift {A : Type} (r : result A) tr : HEALTHY tr -> FAIL_FAST (io_lift r tr).
Proof. intros H. destruct r; exact H. Qed.

Lemma ff_run cmd env tr : HEALTHY tr -> FAIL_FAST (RUN cmd env tr).
Proof.
  intros H. unfold run. destruct (subprocess_run tr cmd env) as [[rc out]|] eqn:E.
  - cbn [returncode stdout]. destruct (Z.eqb_spec rc 0) as [->|Hrc]; cbn.
    + econstructor; eassumption.
    + exists tr, cmd, env. split; [ exact H | ]. exists out. auto.
  - cbn. exists tr, cmd, env. auto.
Qed.

Lemma ff_for {A S : Type} (body : S -> A -> io S) l :
  (forall s a tr, HEALTHY tr -> FAIL_FAST (body s a tr)) ->
  forall s tr, HEALTHY tr -> FAIL_FAST (io_for body l s tr).
Proof.
  intros Hb. induction l as [|a l IH]; intros s tr H; cbn [io_for].
  - apply ff_ret, H.
  - apply ff_bind; [ apply Hb, H | intros; apply IH; assumption ].
Qed.

Lemma ff_commit word year u ts tr :
  HEALTHY tr ->
  FAIL_FAST (commit strftime subprocess_run os_environ word year u ts tr).
Proof.
  intros H. unfold commit. apply ff_bind; [ apply ff_run, H | ].
  intros; apply ff_ret; assumption.
Qed.

Lemma ff_pair dry total p tr :
  HEALTHY tr ->
  FAIL_FAST (main_pair draw_text strftime subprocess_run os_environ dry total p tr).
Proof.
  intros H. destruct p as [year word]. unfold main_pair.
  apply ff_bind; [ apply ff_lift, H | ]. intros sched tr1 H1.
  destruct dry.
  - apply ff_bind; [ apply ff_print, H1 | intros; apply ff_ret; assumption ].
  - apply ff_bind; [ apply ff_print, H1 | ]. intros _ tr2 H2.
    apply ff_bind; [ | intros; apply ff_ret; assumption ].
    apply ff_for; [ intros; apply ff_commit; assumption | exact H2 ].
Qed.

Lemma ff_in_repo args mappings tr :
  HEALTHY tr ->
  FAIL_FAST (main_in_repo draw_text strftime subprocess_run os_environ
                          args mappings tr).
Proof.
  intros H. unfold main_in_repo. apply ff_bind.
  - destruct (branch_given args).
    + apply ff_bind; [ apply ff_run, H | intros; apply ff_ret; assumption ].
    + apply ff_ret, H.
  - intros _ tr1 H1. apply ff_bind.
    + apply ff_for; [ intros; apply ff_pair; assumption | exact H1 ].
    + intros total tr2 H2. destruct (env_get os_environ "DRY_RUN").
      * apply ff_print, H2.
      * apply ff_bind; [ apply ff_print, H2 | ]. intros _ tr3 H3.
        apply ff_bind; [ apply ff_run, H3 | intros; apply ff_ret; assumption ].
Qed.

End FailFast.

Section MainTheorems.

Variable draw_text : PIL.Image -> string -> PIL.Image.
Variable int_of_str : string -> option Z.
Variable strftime : PyDateTime.datetime -> string -> string.
Variable subprocess_run :
list event -> list string -> option environ -> option CompletedProcess.
Variable os_environ : environ.
Variable now_year : Z.

Local Notation "'RUN'" := (run subprocess_run).
Local Notation "'PAIR'" := (main_pair draw_text strftime subprocess_run os_environ).
Local Notation "'MAIN'" :=
(main draw_text int_of_str strftime subprocess_run os_environ now_year).
Local Notation "'SCHEDULES'" :=
(Forall2 (fun (p : Z * string) s =>
            compute_commit_schedule draw_text (snd p) (fst p) = Ok s)).
Local Notation "'DRY_RUN'" :=
(match env_get os_environ "DRY_RUN" with Some _ => true | None => false end).

Lemma parse_mappings_Done ms :
Forall (fun m => exists p, parse_mapping int_of_str m = Done p) ms ->
exists ps, parse_mappings int_of_str ms = Done ps.
Proof.
induction 1 as [|m ms [p Hp] _ [ps IH]]; cbn; [ eauto | ].
rewrite Hp, IH. eauto.
Qed.

Lemma parse_mapping_Fail m f :
parse_mapping int_of_str m = Fail f ->
f = SystemExit_msg ("Bad --map value: " ++ m).
Proof.
unfold parse_mapping.
destruct (split_once ":" m) as [|a [|b [|c l]]]; try congruence.
destruct (int_of_str a); congruence.
Qed.

Lemma parse_mappings_first_bad good bad rest :
Forall (fun m => exists p, parse_mapping int_of_str m = Done p) good ->
(forall p, parse_mapping int_of_str bad <> Done p) ->
parse_mappings int_of_str (good ++ bad :: rest)
= Fail (SystemExit_msg ("Bad --map value: " ++ bad)).
Proof.
intros Hgood Hbad. induction Hgood as [|m ms [p Hp] _ IH]; cbn.
- destruct (parse_mapping int_of_str bad) as [p|f] eqn:E.
  + destruct (Hbad p eq_refl).
  + rewrite (parse_mapping_Fail _ _ E). reflexivity.
- rewrite Hp. cbn in IH. rewrite IH. reflexivity.
Qed.

Lemma run_trace cmd env tr :
exists o ext,
  RUN cmd env tr = (o, tr ++ ext) /\
  Forall (fun e => e = Spawn cmd env \/ exists t, e = Stderr t) ext.
Proof.
unfold run. destruct (subprocess_run tr cmd env) as [[rc out]|].
- cbn [returncode stdout]. destruct (rc =? 0); do 2 eexists;
    (split; [ reflexivity | ]).
  + constructor; [ left; reflexivity | constructor ].
  + constructor; [ left; reflexivity | ].
    constructor; [ right; eauto | constructor ].
- do 2 eexists. split; [ reflexivity | ].
  constructor; [ left; reflexivity | constructor ].
Qed.

Lemma dry_pairs_trace mappings total tr :
exists o ext,
  io_for (PAIR true) mappings total tr = (o, tr ++ ext) /\
  Forall (fun e => exists line, e = Stdout line) ext.
Proof.
revert total tr. induction mappings as [|[year word] l IH]; intros total tr.
- exists (Done total), []. rewrite app_nil_r. split; [ reflexivity | constructor ].
- cbn [io_for]. unfold io_bind at 1, main_pair at 1.
  destruct (compute_commit_schedule draw_text word year) as [sched|e];
    cbn [io_lift].
  + unfold io_bind at 1, io_ret at 1. cbv beta iota.
    unfold io_bind, emit, io_ret.
    destruct (IH (total + Z.of_nat (List.length sched))
                 (tr ++ [Stdout (count_line true year word (List.length sched))]))
      as (o & ext & -> & Hext).
    exists o. eexists. rewrite <- app_assoc. split; [ reflexivity | ].
    constructor; eauto.
  + unfold io_bind, io_raise. exists (Fail (Uncaught e)), [].
    rewrite app_nil_r. split; [ reflexivity | constructor ].
Qed.

Lemma io_for_app {A S : Type} (body : S -> A -> io S) l1 l2 s tr :
io_for body (l1 ++ l2) s tr
= io_bind (io_for body l1 s) (io_for body l2) tr.
Proof.
revert s tr. induction l1 as [|a l1 IH]; intros s tr; cbn [app io_for];
  [ reflexivity | ].
unfold io_bind in *. destruct (body s a tr) as [[s'|f] tr']; [ | reflexivity ].
apply IH.
Qed.

Lemma compute_out_of_domain word year :
~ 2 <= year <= 9998 ->
exists e, compute_commit_schedule draw_text word year = Raise e.
Proof.
intros Hy. destruct (compute_commit_schedule draw_text word year) as [s|e] eqn:E;
  [ | eauto ].
exfalso. apply Hy. destruct (compute_inv _ _ _ _ E) as (_ & cal & _ & _ & Hcal & _).
exact (GridFacts.grid_defined_inv _ _ Hcal).
Qed.


(** X7. A [--map] value is cut at its first colon: the text before it is
  read as the year and everything after it, further colons included, is
  the word.  A value without a colon, and one whose year [int] rejects, end
  the program with the message "Bad --map value: ..." . *)
Theorem X7_map_value_cut_at_first_colon (yr wd : string) :
has_char ":" yr = false ->
parse_mapping int_of_str (yr ++ ":" ++ wd)
= match int_of_str yr with
  | Some year => Done (year, wd)
  | None => Fail (SystemExit_msg ("Bad --map value: " ++ yr ++ ":" ++ wd))
  end /\
parse_mapping int_of_str yr = Fail (SystemExit_msg ("Bad --map value: " ++ yr)).
Proof.
intros Hyr. unfold parse_mapping, split_once. split.
- change (yr ++ ":" ++ wd)%string with (yr ++ String ":" wd)%string.
  rewrite cut_at_first by exact Hyr. reflexivity.
- rewrite cut_at_none by exact Hyr. reflexivity.
Qed.

(** X8. When a [--map] value is bad, [main] ends with SystemExit and the
  message for the first bad value before anything else happens: no process
  is started and nothing is printed. *)
Theorem X8_bad_map_stops_before_git (args : Args) (good rest : list string)
      (bad : string) (tr : list event) :
arg_map args = Some (good ++ bad :: rest) ->
Forall (fun m => exists p, parse_mapping int_of_str m = Done p) good ->
(forall p, parse_mapping int_of_str bad <> Done p) ->
MAIN args tr = (Fail (SystemExit_msg ("Bad --map value: " ++ bad)), tr).
Proof.
intros Hmap Hgood Hbad. unfold main, build_mappings. rewrite Hmap.
pose proof (parse_mappings_first_bad good bad rest Hgood Hbad) as E.
destruct (good ++ bad :: rest) as [|m ms] eqn:El.
- destruct good; discriminate El.
- rewrite E. reflexivity.
Qed.

(** X9. Outside a git work tree, that is when [git rev-parse] exits with a
  code other than 0, [main] forwards its output and the notice "Not a git
  repository..." to stderr and returns normally: no schedule is computed,
  nothing is printed, no other process is started. *)
Theorem X9_not_a_repository (args : Args) (mappings : list (Z * string))
      (rc : Z) (out : string) :
build_mappings int_of_str now_year args = Done mappings ->
subprocess_run [] ["git"; "rev-parse"; "--is-inside-work-tree"]%string None
= Some (mkCompleted rc out) ->
rc <> 0 ->
MAIN args [] = (Done tt, [rev_parse_event; Stderr out; Stderr not_a_repository]).
Proof.
intros Hb Hrun Hrc. unfold main, run. rewrite Hb, Hrun. cbn [returncode stdout].
destruct (Z.eqb_spec rc 0); [ contradiction | reflexivity ].
Qed.

(** X10. With DRY_RUN in the environment, whatever its value and whatever
  the commands do, [main] starts neither [git commit] nor [git push]. *)
Theorem X10_dry_run_never_writes (args : Args) (v : string)
      (o : outcome unit) (tr : list event) :
env_get os_environ "DRY_RUN" = Some v ->
MAIN args [] = (o, tr) ->
Forall (fun e => is_git "commit" e = false /\ is_git "push" e = false) tr.
Proof.
intros Hdry. unfold main.
destruct (build_mappings int_of_str now_year args) as [mappings|f];
  [ | intros [= _ <-]; constructor ].
destruct (run_trace ["git"; "rev-parse"; "--is-inside-work-tree"]%string None [])
  as (o1 & ext1 & -> & H1).
assert (Q1 : Forall (fun e => is_git "commit" e = false /\ is_git "push" e = false)
                    ([] ++ ext1)).
{ cbn [app]. eapply Forall_impl; [ | exact H1 ].
  intros e [-> | [t ->]]; split; reflexivity. }
destruct o1 as [out|[rc|msg|e|]]; try (intros [= _ <-]; exact Q1).
- unfold main_in_repo, io_bind at 1.
  assert (Hco : exists o2 ext2,
             (match branch_given args with
              | Some b => _ <~ RUN ["git"; "checkout"; "-B"; b]%string None ;; io_ret tt
              | None => io_ret tt
              end) ([] ++ ext1) = (o2, ([] ++ ext1) ++ ext2) /\
             Forall (fun e => is_git "commit" e = false /\ is_git "push" e = false)
                    ext2).
  { destruct (branch_given args) as [b|].
    - unfold io_bind.
      destruct (run_trace ["git"; "checkout"; "-B"; b]%string None ([] ++ ext1))
        as (o2 & ext2 & -> & H2).
      exists (match o2 with Done _ => Done tt | Fail f => Fail f end), ext2.
      split; [ destruct o2; reflexivity | ].
      eapply Forall_impl; [ | exact H2 ].
      intros e [-> | [t ->]]; split; reflexivity.
    - exists (Done tt), []. rewrite app_nil_r. split; [ reflexivity | constructor ]. }
  destruct Hco as (o2 & ext2 & -> & Q2).
  assert (Q12 : Forall (fun e => is_git "commit" e = false /\ is_git "push" e = false)
                       (([] ++ ext1) ++ ext2)) by (apply Forall_app; auto).
  destruct o2 as [[]|f]; [ | intros [= _ <-]; exact Q12 ].
  rewrite Hdry. unfold io_bind.
  destruct (dry_pairs_trace mappings 0 (([] ++ ext1) ++ ext2))
    as (o3 & ext3 & -> & H3).
  assert (Q3 : Forall (fun e => is_git "commit" e = false /\ is_git "push" e = false)
                      ((([] ++ ext1) ++ ext2) ++ ext3)).
  { apply Forall_app. split; [ exact Q12 | ].
    eapply Forall_impl; [ | exact H3 ]. intros e [line ->]. split; reflexivity. }
  destruct o3 as [total|f]; intros [= _ <-]; [ | exact Q3 ].
  apply Forall_app. split; [ exact Q3 | ]. repeat constructor.
- intros [= _ <-]. apply Forall_app. split; [ exact Q1 | ]. repeat constructor.
Qed.


Lemma build_mappings_Fail args f :
build_mappings int_of_str now_year args = Fail f -> exists msg, f = SystemExit_msg msg.
Proof.
unfold build_mappings. destruct (arg_map args) as [[|m ms]|]; try discriminate.
generalize (m :: ms). intros l. revert f.
induction l as [|m' l IH]; cbn; intros f; [ discriminate | ].
destruct (parse_mapping int_of_str m') as [p|f'] eqn:E.
- destruct (parse_mappings int_of_str l) as [ps|f'']; [ discriminate | ].
  intros [= <-]. apply IH. reflexivity.
- intros [= <-]. rewrite (parse_mapping_Fail _ _ E). eauto.
Qed.


(** X13. Each commit runs with GIT_AUTHOR_DATE and GIT_COMMITTER_DATE both
  set to the formatted timestamp, and with every other variable as in the
  environment of the program. *)
Theorem X13_commit_environment (ts : PyDateTime.datetime) (key : string) :
key <> "GIT_AUTHOR_DATE"%string ->
key <> "GIT_COMMITTER_DATE"%string ->
let env := commit_env strftime os_environ ts in
let iso := strftime ts "%Y-%m-%d %H:%M:%S +0000" in
env_get env "GIT_AUTHOR_DATE" = Some iso /\
env_get env "GIT_COMMITTER_DATE" = Some iso /\
env_get env key = env_get os_environ key.
Proof.
intros Ha Hc env iso. subst env. unfold commit_env. fold iso.
split; [ | split ].
- rewrite env_get_set_other by discriminate. apply env_get_set_same.
- apply env_get_set_same.
- rewrite !env_get_set_other by congruence. reflexivity.
Qed.

Section AllSucceed.

Hypothesis all_ok :
forall tr cmd env,
exists out, subprocess_run tr cmd env = Some (mkCompleted 0 out).

Lemma run_ok cmd env tr :
exists out, RUN cmd env tr = (Done out, tr ++ [Spawn cmd env]).
Proof.
unfold run. destruct (all_ok tr cmd env) as [out ->]. cbn. eauto.
Qed.

Lemma commits_ok word year sched tr :
io_for ((commit strftime subprocess_run os_environ) word year) sched tt tr
= (Done tt,
 tr ++ map (fun ts => Spawn (commit_cmd word year ts)
                            (Some (commit_env strftime os_environ ts)))
           sched).
Proof.
revert tr. induction sched as [|ts sched IH]; intros tr; cbn.
- unfold io_ret. rewrite app_nil_r. reflexivity.
- unfold io_bind, commit at 1, io_bind.
destruct (run_ok (commit_cmd word year ts)
                 (Some (commit_env strftime os_environ ts)) tr) as [out ->].
cbn. rewrite IH, <- app_assoc. reflexivity.
Qed.

Lemma pairs_ok dry mappings scheds :
SCHEDULES mappings scheds ->
forall total tr,
io_for (PAIR dry) mappings total tr
= (Done (total + total_commits scheds),
   tr ++ flat_map (pair_events strftime os_environ dry)
                  (combine mappings scheds)).
Proof.
induction 1 as [|[year word] sched mappings scheds Hs _ IH];
intros total tr; cbn [io_for combine flat_map total_commits fold_right].
- unfold io_ret. rewrite Z.add_0_r, app_nil_r. reflexivity.
- cbn [fst snd] in Hs. unfold io_bind at 1, main_pair at 1.
rewrite Hs. cbn [io_lift]. unfold io_bind at 1, io_ret at 1.
destruct dry.
+ unfold io_bind, emit, io_ret. rewrite IH.
  fold (total_commits scheds). cbn [pair_events].
  rewrite <- app_assoc. cbn [app]. f_equal. f_equal. lia.
+ unfold io_bind at 1, emit at 1. unfold io_bind at 1.
  rewrite commits_ok. unfold io_ret at 1. rewrite IH.
  fold (total_commits scheds). cbn [pair_events].
  rewrite <- !app_assoc. cbn [app]. f_equal. f_equal. lia.
Qed.


Lemma checkout_ok args tr :
(match branch_given args with
| Some b => _ <~ RUN ["git"; "checkout"; "-B"; b]%string None ;; io_ret tt
| None => io_ret tt
end) tr
= (Done tt, tr ++ checkout_events args).
Proof.
unfold checkout_events. destruct (branch_given args) as [b|].
- unfold io_bind. destruct (run_ok ["git"; "checkout"; "-B"; b]%string None tr)
  as [out ->]. reflexivity.
- unfold io_ret. rewrite app_nil_r. reflexivity.
Qed.

(** X11. A dry run in which the two preliminary commands succeed prints one
line per pair, with the length of its schedule, then the sum of these
lengths, and returns; beside [git rev-parse] and the checkout [--branch]
asks for, it starts no process. *)
Theorem X11_dry_run_report (args : Args) (v : string)
    (mappings : list (Z * string))
    (scheds : list (list PyDateTime.datetime)) :
env_get os_environ "DRY_RUN" = Some v ->
build_mappings int_of_str now_year args = Done mappings ->
SCHEDULES mappings scheds ->
MAIN args []
= (Done tt,
 rev_parse_event :: checkout_events args
   ++ flat_map (pair_events strftime os_environ true) (combine mappings scheds)
   ++ [Stdout ("[DRY-RUN] Total would commit: "
               ++ str_int (total_commits scheds))]).
Proof.
intros Hdry Hb Hs. unfold main. rewrite Hb.
destruct (run_ok ["git"; "rev-parse"; "--is-inside-work-tree"]%string None [])
as [out ->].
unfold main_in_repo, io_bind at 1. rewrite checkout_ok, Hdry.
unfold io_bind. rewrite (pairs_ok true _ _ Hs). unfold emit.
rewrite Z.add_0_l, <- !app_assoc. reflexivity.
Qed.

(** X12. A real run (no DRY_RUN) in which every command succeeds starts, in
this order: [git rev-parse]; the checkout [--branch] asks for; for each
pair, after its count line, one [git commit --allow-empty] per timestamp
of its schedule, in schedule order, under that timestamp's environment;
then [git push <remote> <ref>], the ref being the branch, or HEAD
without one. *)
Theorem X12_real_run_commits_then_pushes (args : Args)
    (mappings : list (Z * string))
    (scheds : list (list PyDateTime.datetime)) :
env_get os_environ "DRY_RUN" = None ->
build_mappings int_of_str now_year args = Done mappings ->
SCHEDULES mappings scheds ->
let ref := match branch_given args with
         | Some b => b
         | None => "HEAD"%string
         end in
MAIN args []
= (Done tt,
 rev_parse_event :: checkout_events args
   ++ flat_map (pair_events strftime os_environ false) (combine mappings scheds)
   ++ [Stdout ("Pushing to '" ++ arg_remote args ++ "' " ++ ref);
       Spawn ["git"; "push"; arg_remote args; ref]%string None]).
Proof.
intros Hdry Hb Hs ref. unfold main. rewrite Hb.
destruct (run_ok ["git"; "rev-parse"; "--is-inside-work-tree"]%string None [])
as [out ->].
unfold main_in_repo, io_bind at 1. rewrite checkout_ok, Hdry.
unfold io_bind at 1. rewrite (pairs_ok false _ _ Hs).
unfold io_bind at 1, emit at 1. unfold io_bind.
fold ref.
match goal with
| |- context [RUN ?c None ?t] => destruct (run_ok c None t) as [out' ->]
end.
unfold io_ret. rewrite <- !app_assoc. reflexivity.
Qed.

(** X16. A pair whose year lies outside 2..9998 is not rejected with the bad
[--map] values: [main] works through the pairs before it (committing
for each, in a real run), then ends with the uncaught exception of the
calendar, and never pushes. *)
Theorem X16_out_of_range_year_after_commits (args : Args)
    (good rest : list (Z * string)) (year : Z) (word : string)
    (scheds : list (list PyDateTime.datetime)) :
build_mappings int_of_str now_year args = Done (good ++ (year, word) :: rest) ->
SCHEDULES good scheds ->
~ 2 <= year <= 9998 ->
exists e,
compute_commit_schedule draw_text word year = Raise e /\
MAIN args []
= (Fail (Uncaught e),
   rev_parse_event :: checkout_events args
     ++ flat_map (pair_events strftime os_environ DRY_RUN)
                 (combine good scheds)).
Proof.
intros Hb Hs Hy. destruct (compute_out_of_domain word year Hy) as [e He].
exists e. split; [ exact He | ]. unfold main. rewrite Hb.
destruct (run_ok ["git"; "rev-parse"; "--is-inside-work-tree"]%string None [])
as [out ->].
unfold main_in_repo, io_bind at 1. rewrite checkout_ok.
unfold io_bind at 1. rewrite io_for_app. unfold io_bind at 1.
rewrite (pairs_ok _ _ _ Hs). cbn [io_for]. unfold io_bind at 1, main_pair at 1.
rewrite He. cbn [io_lift]. unfold io_bind, io_raise. reflexivity.
Qed.

End AllSucceed.

Lemma sorted_app {T : Type} (R : T -> T -> Prop) l1 l2 :
StronglySorted R l1 -> StronglySorted R l2 ->
(forall a b, In a l1 -> In b l2 -> R a b) ->
StronglySorted R (l1 ++ l2).
Proof.
induction 1 as [|a l1 Hl1 IH Ha]; cbn; intros H2 H12; [ exact H2 | ].
constructor; [ apply IH; auto | ].
apply Forall_app. split; [ exact Ha | ].
apply Forall_forall. intros b Hb. apply H12; auto.
Qed.

Lemma schedule_facts word year sched :
compute_commit_schedule draw_text word year = Ok sched ->
StronglySorted PyDateTime.lt sched /\
Forall (fun t => PyDateTime.year t = year) sched.
Proof.
intros H. destruct (compute_cells _ _ _ _ H) as (pix & cal & _ & _ & E & Hinc).
split; [ exact Hinc | ]. subst sched.
apply Forall_forall. intros t ([x y] & _ & Ht)%in_flat_map.
unfold cell_entries in Ht.
destruct (grid_at pix y x) as [[|]|]; try contradiction.
destruct (grid_at cal x y) as [d|]; try contradiction.
destruct (Z.eqb_spec (PyDate.year d) year) as [Ey|Ey]; [ | contradiction ].
destruct Ht as [<-|[]]. exact Ey.
Qed.

Lemma earlier_year a b :
PyDateTime.year a < PyDateTime.year b -> PyDateTime.lt a b.
Proof.
intros H. unfold PyDateTime.lt, PyDateTime.ltb, PyDateTime.astuple.
apply tuple_ltb_cons. left. exact H.
Qed.

Lemma schedules_chronological (mappings : list (Z * string))
    (scheds : list (list PyDateTime.datetime)) :
StronglySorted Z.lt (map fst mappings) ->
SCHEDULES mappings scheds ->
StronglySorted PyDateTime.lt (List.concat scheds).
Proof.
intros Hy Hs.
induction Hs as [|[year word] sched mappings scheds H Hrest IH];
  cbn [List.concat]; [ constructor | ].
cbn [map fst snd] in *. inversion Hy as [|? ? Hy' Hlt]; subst.
destruct (schedule_facts _ _ _ H) as [Hinc Hyear].
apply sorted_app; [ exact Hinc | apply IH, Hy' | ].
intros a b Ha Hb. apply earlier_year.
rewrite Forall_forall in Hyear. rewrite (Hyear a Ha).
clear IH Hy Hy' H Hinc Hyear Ha.
induction Hrest as [|[year' word'] sched' ms ss H' Hs' IH]; [ destruct Hb | ].
cbn [map fst] in Hlt. inversion Hlt as [|? ? Hlt1 Hlt2]; subst.
cbn [List.concat] in Hb. apply in_app_or in Hb as [Hb|Hb].
- destruct (schedule_facts _ _ _ H') as [_ Hyear'].
  rewrite Forall_forall in Hyear'. rewrite (Hyear' b Hb). exact Hlt1.
- apply IH; assumption.
Qed.

(** X14. When the years of the pairs increase, so do the timestamps of all
  the commits, taken in the order [main] makes them: the history is
  chronological. *)
Theorem X14_commits_chronological (mappings : list (Z * string))
      (scheds : list (list PyDateTime.datetime)) :
StronglySorted Z.lt (map fst mappings) ->
SCHEDULES mappings scheds ->
StronglySorted PyDateTime.lt (List.concat scheds).
Proof. apply schedules_chronological. Qed.

Lemma schedule_defined word year :
2 <= year <= 9998 ->
exists sched, compute_commit_schedule draw_text word year = Ok sched.
Proof.
intros Hy. destruct (GridFacts.grid_defined year Hy) as [cal Hcal].
destruct (ScheduleFacts.schedule_inv draw_text word year cal Hcal)
  as (pix & _ & _ & H & _).
eauto.
Qed.

(** X17. Without [--map], or with an empty list of values, the three words
  LEBRON, elephanto and feel are drawn in the three years before the
  current one, in this order.  When the current year lies between 5 and
  9999 the three schedules exist and, one after the other, are strictly
  chronological. *)
Theorem X17_default_mappings (args : Args) :
arg_map args = None \/ arg_map args = Some [] ->
5 <= now_year <= 9999 ->
build_mappings int_of_str now_year args
= Done [(now_year - 3, "LEBRON"%string); (now_year - 2, "elephanto"%string);
        (now_year - 1, "feel"%string)] /\
exists scheds,
  SCHEDULES [(now_year - 3, "LEBRON"%string); (now_year - 2, "elephanto"%string);
             (now_year - 1, "feel"%string)] scheds /\
  StronglySorted PyDateTime.lt (List.concat scheds).
Proof.
intros Hmap Hnow.
assert (Hb : build_mappings int_of_str now_year args
             = Done [(now_year - 3, "LEBRON"%string);
                     (now_year - 2, "elephanto"%string);
                     (now_year - 1, "feel"%string)]).
{ replace (now_year - 3) with (now_year - 1 - 2) by lia.
  replace (now_year - 2) with (now_year - 1 - 1) by lia.
  unfold build_mappings, default_map. destruct Hmap as [-> | ->]; reflexivity. }
split; [ exact Hb | ].
destruct (schedule_defined "LEBRON" (now_year - 3) ltac:(lia)) as [s1 H1].
destruct (schedule_defined "elephanto" (now_year - 2) ltac:(lia)) as [s2 H2].
destruct (schedule_defined "feel" (now_year - 1) ltac:(lia)) as [s3 H3].
assert (Hs : SCHEDULES [(now_year - 3, "LEBRON"%string);
                        (now_year - 2, "elephanto"%string);
                        (now_year - 1, "feel"%string)] [s1; s2; s3])
  by (repeat constructor; assumption).
exists [s1; s2; s3]. split; [ exact Hs | ].
apply schedules_chronological in Hs; [ exact Hs | ].
cbn [map fst]. repeat constructor; lia.
Qed.


End MainTheorems.

(** ** Runs on concrete surroundings *)

Lemma X7_map_value_cut_at_first_colon_witness :
  parse_mapping read_year "2021:a:b" = Done (2021, "a:b"%string) /\
  parse_mapping read_year "2021" = Fail (SystemExit_msg "Bad --map value: 2021").
Proof. exact (X7_map_value_cut_at_first_colon read_year "2021" "a:b" eq_refl). Defined.

Lemma X8_bad_map_stops_before_git_witness :
  main checker_text read_year iso_only quiet_world [] 2025
       (mkArgs (Some ["2021:x"; "zz"; "0:y"]%string) "origin" None) []
  = (Fail (SystemExit_msg "Bad --map value: zz"), []).
Proof.
  apply (X8_bad_map_stops_before_git checker_text read_year iso_only quiet_world
           [] 2025 _ ["2021:x"%string] ["0:y"%string] "zz").
  - reflexivity.
  - constructor; [ eexists; reflexivity | constructor ].
  - intros p H. discriminate H.
Defined.

Lemma X9_not_a_repository_witness :
  main checker_text read_year iso_only no_repo_world [] 2025
       (mkArgs (Some ["0:y"]%string) "origin" None) []
  = (Done tt,
     [rev_parse_event; Stderr "fatal: not a git repository";
      Stderr not_a_repository]).
Proof.
  apply (X9_not_a_repository checker_text read_year iso_only no_repo_world
           [] 2025 _ [(0, "y"%string)] 128).
  - reflexivity.
  - reflexivity.
  - discriminate.
Defined.

Lemma X10_dry_run_never_writes_witness :
  Forall (fun e => is_git "commit" e = false /\ is_git "push" e = false)
         (snd (main checker_text read_year iso_only quiet_world
                    [("DRY_RUN", "0")]%string 2025
                    (mkArgs (Some ["2021:HI"]%string) "origin" (Some "main"%string))
                    [])).
Proof.
  eapply (X10_dry_run_never_writes checker_text read_year iso_only quiet_world
            [("DRY_RUN", "0")]%string 2025 _ "0").
  - reflexivity.
  - apply surjective_pairing.
Defined.

Lemma X11_dry_run_report_witness :
  exists tr,
    main checker_text read_year iso_only quiet_world [("DRY_RUN", "")]%string 2025
         (mkArgs (Some ["2021:HI"]%string) "origin" None) []
    = (Done tt, tr).
Proof.
  assert (H : { s | compute_commit_schedule checker_text "HI" 2021 = Ok s })
    by (eexists; vm_compute; reflexivity).
  destruct H as [s Hs]. eexists.
  apply (X11_dry_run_report checker_text read_year iso_only quiet_world
           [("DRY_RUN", "")]%string 2025
           ltac:(intros; eexists; reflexivity) _ ""%string
           [(2021, "HI"%string)] [s]).
  - reflexivity.
  - reflexivity.
  - constructor; [ exact Hs | constructor ].
Defined.

Lemma X12_real_run_commits_then_pushes_witness :
  exists tr,
    main checker_text read_year iso_only quiet_world [] 2025
         (mkArgs (Some ["2021:HI"]%string) "origin" None) []
    = (Done tt,
       tr ++ [Stdout "Pushing to 'origin' HEAD";
              Spawn ["git"; "push"; "origin"; "HEAD"]%string None]).
Proof.
  assert (H : { s | compute_commit_schedule checker_text "HI" 2021 = Ok s })
    by (eexists; vm_compute; reflexivity).
  destruct H as [s Hs].
  exists (rev_parse_event
            :: flat_map (pair_events iso_only [] false) [((2021, "HI"%string), s)]).
  rewrite (X12_real_run_commits_then_pushes checker_text read_year iso_only
             quiet_world [] 2025 ltac:(intros; eexists; reflexivity) _
             [(2021, "HI"%string)] [s]).
  - reflexivity.
  - reflexivity.
  - reflexivity.
  - constructor; [ exact Hs | constructor ].
Defined.

Lemma X13_commit_environment_witness :
  env_get (commit_env iso_only [("PATH", "/usr/bin")]%string
                      (noon (PyDate.mkdate 2021 1 3))) "GIT_AUTHOR_DATE"
  = Some "2021-01-03"%string /\
  env_get (commit_env iso_only [("PATH", "/usr/bin")]%string
                      (noon (PyDate.mkdate 2021 1 3))) "PATH"
  = Some "/usr/bin"%string.
Proof.
  destruct (X13_commit_environment iso_only [("PATH", "/usr/bin")]%string
              (noon (PyDate.mkdate 2021 1 3)) "PATH") as (Ha & _ & Hk).
  - discriminate.
  - discriminate.
  - split; [ exact Ha | exact Hk ].
Defined.

Lemma X14_commits_chronological_witness :
  exists s1 s2,
    compute_commit_schedule checker_text "A" 2021 = Ok s1 /\
    compute_commit_schedule checker_text "B" 2022 = Ok s2 /\
    StronglySorted PyDateTime.lt (s1 ++ s2).
Proof.
  assert (H1 : { s | compute_commit_schedule checker_text "A" 2021 = Ok s })
    by (eexists; vm_compute; reflexivity).
  assert (H2 : { s | compute_commit_schedule checker_text "B" 2022 = Ok s })
    by (eexists; vm_compute; reflexivity).
  destruct H1 as [s1 H1], H2 as [s2 H2]. exists s1, s2.
  split; [ exact H1 | ]. split; [ exact H2 | ].
  rewrite <- (app_nil_r s2).
  apply (X14_commits_chronological checker_text
           [(2021, "A"%string); (2022, "B"%string)] [s1; s2]).
  - repeat constructor.
  - repeat constructor; assumption.
Defined.

Lemma X16_out_of_range_year_after_commits_witness :
  exists e tr,
    main checker_text read_year iso_only quiet_world [] 2025
         (mkArgs (Some ["2021:HI"; "0:y"]%string) "origin" None) []
    = (Fail (Uncaught e), tr) /\
    existsb (is_git "commit") tr = true /\ existsb (is_git "push") tr = false.
Proof.
  assert (H : { s | compute_commit_schedule checker_text "HI" 2021 = Ok s })
    by (eexists; vm_compute; reflexivity).
  destruct H as [s Hs].
  destruct (X16_out_of_range_year_after_commits checker_text read_year iso_only
              quiet_world [] 2025 ltac:(intros; eexists; reflexivity)
              (mkArgs (Some ["2021:HI"; "0:y"]%string) "origin" None)
              [(2021, "HI"%string)] [] 0 "y" [s]) as (e & _ & Hm).
  - reflexivity.
  - constructor; [ exact Hs | constructor ].
  - lia.
  - exists e. eexists. split; [ exact Hm | ].
    vm_compute in Hs. injection Hs as <-. split; reflexivity.
Defined.

Lemma X17_default_mappings_witness :
  build_mappings read_year 2025 (mkArgs None "origin" None)
  = Done [(2022, "LEBRON"%string); (2023, "elephanto"%string);
          (2024, "feel"%string)].
Proof.
  destruct (X17_default_mappings checker_text read_year 2025
              (mkArgs None "origin" None)) as [H _].
  - left. reflexivity.
  - lia.
  - exact H.
Defined.
